(** * hyperspy.io_plugins.image: the image import/export plugin

    A shallow embedding of [hyperspy/io_plugins/image.py] and the properties of
    its reader ([file_reader], [_read_data]) and writer ([file_writer]).

    The plugin is glue between the host (signals, axes) and delegate libraries
    (the image codec, the figure rasterizer, the scale-bar overlay, the unit
    registry).  The delegates are not part of the plugin: they are gathered in
    the record [Delegates], and every call the plugin makes to one of them is
    recorded, in order, in a trace of [event]s.  Python exceptions are the
    [Raise] results of the monad [M]. *)

From Stdlib Require Import ZArith String Ascii List Lia.
From Stdlib Require Import Floats.PrimFloat Uint63.
From Stdlib Require Import Floats.SpecFloat Floats.FloatOps.
From stdpp Require Import base option list gmap strings sorting.

(** ** Python values and exceptions *)

Module Py.

(** The exceptions the plugin raises itself, and any exception of a delegate. *)
Inductive exn :=
| ValueError (msg : string)
| IndexError (index axis size : nat)
    (* numpy: index [index] is out of bounds for axis [axis] with size [size] *)
| TooManyIndices (ndim : nat)
| UnboundLocalError (name : string)
| DelegateError (name msg : string).

Inductive result (A : Type) : Type :=
| Return (a : A)
| Raise (e : exn).
Arguments Return {A} a.
Arguments Raise {A} e.

#[global] Instance result_ret : MRet result := λ A a, Return a.
#[global] Instance result_bind : MBind result := λ A B f r,
  match r with
  | Return a => f a
  | Raise e => Raise e
  end.

(** Values that travel in keyword dictionaries. *)
Inductive pyvalue :=
| VNone
| VBool (b : bool)
| VInt (z : Z)
| VFloat (f : float)
| VStr (s : string).

(** [bool(v)] *)
Definition truthy (v : pyvalue) : bool :=
  match v with
  | VNone => false
  | VBool b => b
  | VInt z => negb (z =? 0)%Z
  | VFloat f => negb (PrimFloat.eqb f 0%float)
  | VStr s => negb (String.eqb s "")
  end.

(** [**kwds]: a dictionary from keyword to value. *)
Abbreviation kwargs := (gmap string pyvalue).

(** An [int] or a [float]. *)
Inductive number :=
| NInt (z : Z)
| NFloat (f : float).

(** [float(z)] for an [int]; exact for [|z| < 2^53], the range in which
    Python's true division of two ints is the binary64 quotient of the
    converted operands.  Beyond it the conversion goes through a 63-bit
    machine integer and is no longer Python's (which rounds once, and raises
    [OverflowError] past the largest float): the theorems on the errors of
    the writer and on the size of its canvas are stated for sizes within
    [in_float_range]. *)
Definition float_of_int (z : Z) : float :=
  if (z <? 0)%Z then PrimFloat.opp (PrimFloat.of_uint63 (Uint63.of_Z (- z)))
  else PrimFloat.of_uint63 (Uint63.of_Z z).

Definition float_of_number (n : number) : float :=
  match n with
  | NInt z => float_of_int z
  | NFloat f => f
  end.

(** [n / d] for an int [d]. *)
Definition truediv (n : number) (d : Z) : float :=
  PrimFloat.div (float_of_number n) (float_of_int d).

Definition truthy_number (n : number) : bool :=
  match n with
  | NInt z => negb (z =? 0)%Z
  | NFloat f => negb (PrimFloat.eqb f 0%float)
  end.

(** [sep.join(l)] *)
Fixpoint join (sep : string) (l : list string) : string :=
  match l with
  | [] => ""
  | [x] => x
  | x :: l' => x +:+ sep +:+ join sep l'
  end.

(** [sorted(l)] on strings: ascending, by code point. *)
Definition sorted (l : list string) : list string :=
  merge_sort (λ a b, Is_true (String.leb a b)) l.

End Py.
Export Py.

(** ** os.path on POSIX *)

Module OsPath.

(** [s.rfind(c)], the index of the last occurrence of [c] counted from [i],
    or [-1]. *)
Fixpoint rfind_from (c : ascii) (s : string) (i : Z) : Z :=
  match s with
  | EmptyString => (-1)%Z
  | String a s' =>
      let r := rfind_from c s' (i + 1)%Z in
      if (0 <=? r)%Z then r else if Ascii.eqb a c then i else (-1)%Z
  end.

Definition rfind (c : ascii) (s : string) : Z := rfind_from c s 0%Z.

(** [s[i:]] for [0 <= i] *)
Definition slice_from (i : nat) (s : string) : string :=
  String.substring i (String.length s - i) s.

(** [os.path.splitext(p)]: the extension starts at the last dot of the last
    path component, unless only dots precede it in that component. *)
Definition splitext (p : string) : string * string :=
  let sepIndex := rfind "/"%char p in
  let dotIndex := rfind "."%char p in
  if (sepIndex <? dotIndex)%Z then
    let first := Z.to_nat (sepIndex + 1) in
    let dot := Z.to_nat dotIndex in
    if existsb (λ i, negb (bool_decide (String.get i p = Some "."%char)))
               (seq first (dot - first))
    then (String.substring 0 dot p, slice_from dot p)
    else (p, "")
  else (p, "").

(** [os.path.split(p)]: head and tail around the last slash (the head is
    stripped of its trailing slashes unless it is all slashes). *)
Fixpoint rstrip_slashes (cs : list ascii) : list ascii :=
  match cs with
  | [] => []
  | c :: cs' =>
      match rstrip_slashes cs' with
      | [] => if Ascii.eqb c "/"%char then [] else [c]
      | r => c :: r
      end
  end.

Definition split (p : string) : string * string :=
  let i := Z.to_nat (rfind "/"%char p + 1) in
  let head := String.substring 0 i p in
  let tail := slice_from i p in
  let stripped := rstrip_slashes (String.list_ascii_of_string head) in
  (match stripped with
   | [] => head
   | _ => String.string_of_list_ascii stripped
   end, tail).

(** [s.replace(c, '')] for a one-character [c] *)
Fixpoint remove_char (c : ascii) (s : string) : string :=
  match s with
  | EmptyString => EmptyString
  | String a s' => if Ascii.eqb a c then remove_char c s' else String a (remove_char c s')
  end.

End OsPath.

(** ** numpy arrays *)

Module Numpy.

(** Element types: plain unsigned samples, and the host's packed RGB(A)
    types, whose elements hold all the channels of a pixel in one value. *)
Inductive dtype := uint8 | uint16 | uint32 | rgb8 | rgba8 | rgb16 | rgba16.

#[global] Instance dtype_eq_dec : EqDecision dtype.
Proof. solve_decision. Defined.

(** An array: element type, shape, and the elements in row-major (C) order,
    one entry per element. *)
Record ndarray := mk_ndarray {
  arr_dtype : dtype;
  shape : list nat;
  buffer : list Z
}.

Definition ndim (a : ndarray) : nat := length (shape a).

Definition numel (sh : list nat) : nat := foldr Nat.mul 1 sh.

(** The buffer holds exactly the elements the shape announces. *)
Definition wf_ndarray (a : ndarray) : Prop := length (buffer a) = numel (shape a).

(** From each of [count] consecutive chunks of [stride] entries, the [width]
    entries that start at [offset]. *)
Fixpoint gather (count stride offset width : nat) (buf : list Z) : list Z :=
  match count with
  | 0 => []
  | S n => take width (drop offset buf) ++ gather n stride offset width (drop stride buf)
  end.

(** [a[:, :, k]] for [0 <= k]: index [k] on axis 2, all of axes 0 and 1 (and of
    the axes after 2). *)
Definition index_axis2 (k : nat) (a : ndarray) : result ndarray :=
  match shape a with
  | d0 :: d1 :: d2 :: rest =>
      if decide (k < d2) then
        let inner := numel rest in
        Return {| arr_dtype := arr_dtype a;
                  shape := d0 :: d1 :: rest;
                  buffer := gather (d0 * d1) (d2 * inner) (k * inner) inner (buffer a) |}
      else Raise (IndexError k 2 d2)
  | sh => Raise (TooManyIndices (length sh))
  end.

(** [(a == b).all()] for two arrays of one shape *)
Definition eq_all (a b : ndarray) : bool :=
  forallb (λ p, (p.1 =? p.2)%Z) (zip (buffer a) (buffer b)).

(** [a[i, j, k]] of a 3-D array and [a[i, j]] of a 2-D array, read from the
    buffer. *)
Definition at3 (a : ndarray) (i j k : nat) : Z :=
  match shape a with
  | [_; d1; d2] => nth ((i * d1 + j) * d2 + k) (buffer a) 0%Z
  | _ => 0%Z
  end.

Definition at2 (a : ndarray) (i j : nat) : Z :=
  match shape a with
  | [_; d1] => nth (i * d1 + j) (buffer a) 0%Z
  | _ => 0%Z
  end.

End Numpy.
Export Numpy.

(** ** The host's signals and the delegate libraries *)

Module Host.

(** [units] of an axis: a string, or the traits sentinel [t.Undefined]. *)
Inductive units_t :=
| Undefined
| Units (s : string).

#[global] Instance units_eq_dec : EqDecision units_t.
Proof. solve_decision. Defined.

(** An axis descriptor of the host (a uniform axis). *)
Record Axis := mk_axis {
  axis_size : Z;
  axis_scale : float;
  axis_units : units_t
}.

Record AxesManager := mk_axes_manager {
  signal_axes : list Axis;
  navigation_axes : list Axis
}.

Record Signal := mk_signal {
  signal_data : ndarray;
  axes_manager : AxesManager
}.

(** The [output_size] argument: [None], one number, or a sequence of numbers. *)
Inductive size_arg :=
| SizeNone
| SizeNumber (n : number)
| SizeSeq (l : list number).

(** [bool(output_size)] *)
Definition truthy_size (s : size_arg) : bool :=
  match s with
  | SizeNone => false
  | SizeNumber n => truthy_number n
  | SizeSeq l => negb (bool_decide (l = []))
  end.

(** The calls the plugin makes to its delegates, as they appear in the trace. *)
Inductive event :=
| Imread (uri : string) (kwds : kwargs)                  (* imageio.imread *)
| Imwrite (uri : string) (im : ndarray) (kwds : kwargs)  (* imageio.imwrite *)
| LogWarning (msg : string)                              (* _logger.warning *)
| NewFigure (figsize : list float) (dpi : Z)             (* Figure(figsize=, dpi=) *)
| AddAxes (rect : list Z)                                (* fig.add_axes *)
| AxisOff                                                (* ax.axis('off') *)
| Imshow (im : ndarray) (cmap : string)                  (* ax.imshow *)
| NewScaleBar (dx : float) (units : string) (kwds : kwargs) (* ScaleBar(dx, units, **kwds) *)
| AddArtist                                              (* ax.add_artist *)
| Savefig (fname : string) (dpi : Z) (pil_kwargs : kwargs). (* fig.savefig *)

(** What the plugin is linked against.  [imread] decodes a file or raises;
    [outcome] tells for every other call whether the delegate raises there.
    The three functions of [hyperspy.misc.rgb_tools], a module of the host
    that is not among the sources, are taken as parameters here as well:
    the plugin only calls them. *)
Record Delegates := mk_delegates {
  imread : string → kwargs → result ndarray;
  outcome : event → option exn;
  is_rgbx : ndarray → bool;
  rgbx2regular_array : ndarray → ndarray;
  regular_array2rgbx : ndarray → result ndarray;
  scalebar_importable : bool;
    (* whether [from matplotlib_scalebar.scalebar import ScaleBar] succeeds *)
  supported_filetypes : list string;
    (* the keys of [fig.canvas.get_supported_filetypes()] *)
  check_reciprocal_length : string → result bool
    (* [_ureg.Quantity(units).check('1/[length]')] *)
}.

(** The lazy array of [dask.array.from_delayed]: a deferred call of
    [_read_data] with its arguments, and the announced shape and dtype. *)
Inductive array_node :=
| Eager (a : ndarray)
| Delayed (uri : string) (kwds : kwargs) (sh : list nat) (dt : dtype).

Record read_result := mk_read_result {
  data : array_node;
  original_filename : string;
  signal_type : string;
  record_by : string
}.

End Host.
Export Host.

(** ** The monad of the plugin: a trace of delegate calls and a result *)

Module Trace.

Definition M (A : Type) : Type := (list event * result A)%type.

#[global] Instance M_ret : MRet M := λ A a, ([], Return a).
#[global] Instance M_bind : MBind M := λ A B f m,
  match m.2 with
  | Return a => (m.1 ++ (f a).1, (f a).2)
  | Raise e => (m.1, Raise e)
  end.

Definition raise {A} (e : exn) : M A := ([], Raise e).

(** A pure computation that may raise. *)
Definition lift {A} (r : result A) : M A := ([], r).

(** A recorded call that never raises. *)
Definition log (e : event) : M unit := ([e], Return tt).

Section Calls.
Context (D : Delegates).

(** A recorded call to a delegate, which raises where [outcome] says so. *)
Definition perform (e : event) : M unit :=
  ([e], match outcome D e with
        | None => Return tt
        | Some x => Raise x
        end).

Definition call_imread (uri : string) (kwds : kwargs) : M ndarray :=
  ([Imread uri kwds], imread D uri kwds).
End Calls.

End Trace.
Export Trace.

(** ** The plugin *)

Module Image.

(** Plugin characteristics *)
Definition format_name : string := "Signal2D".
Definition description : string :=
  "Import/Export standard image formats using pillow, freeimage or matplotlib (with scalebar)".
Definition full_support : bool := false.
Definition file_extensions : list string :=
  ["png"; "bmp"; "dib"; "gif"; "jpeg"; "jpe"; "jpg";
   "msp"; "pcx"; "ppm"; "pbm"; "pgm"; "xbm"; "spi"].
Definition default_extension : nat := 0.
Definition writes : list (nat * nat) := [(2, 0)].
Definition non_uniform_axis : bool := false.

(** [dict(box_alpha=0.75, location='lower left')] *)
Definition default_scalebar_kwds : kwargs :=
  {[ "box_alpha" := VFloat 0.75%float; "location" := VStr "lower left" ]}.

Definition dpi : Z := 100.

(** [axes[i]] *)
Definition getitem (axes : list Axis) (i : nat) : result Axis :=
  match axes !! i with
  | Some a => Return a
  | None => Raise (IndexError i 0 (length axes))
  end.

(** Reading a local variable that is assigned in an earlier branch only. *)
Definition bound {A} (name : string) (v : option A) : result A :=
  match v with
  | Some a => Return a
  | None => Raise (UnboundLocalError name)
  end.

(** [os.path.splitext(filename)[1].replace('.', '')] *)
Definition extension (filename : string) : string :=
  OsPath.remove_char "."%char (OsPath.splitext filename).2.

Section Plugin.
Context (D : Delegates).

(** [file_writer], lines 46-146. *)
Definition file_writer (filename : string) (signal : Signal) (scalebar : bool)
    (scalebar_kwds : option kwargs) (output_size : size_arg) (kwds : kwargs) : M unit :=
  let data := signal_data signal in
  let scalebar_kwds := default default_scalebar_kwds scalebar_kwds in
  let data := if is_rgbx D data then rgbx2regular_array D data else data in
  scalebar ← (if scalebar then
                if scalebar_importable D then (mret true : M bool)
                else
                  log (LogWarning
                    "Exporting image with scalebar requires the matplotlib-scalebar library.");;
                  mret false
              else mret false);
  '(axes, fig, output_size) ←
    (if scalebar || truthy_size output_size then
       axes ← (if bool_decide (length (signal_axes (axes_manager signal)) = 2) then
                 (mret (signal_axes (axes_manager signal)) : M (list Axis))
               else if bool_decide (length (navigation_axes (axes_manager signal)) = 2) then
                 mret (navigation_axes (axes_manager signal))
               else raise (ValueError "Data not compatible with saving scale bar."));
       let sizes :=
         match output_size with
         | SizeNone => map (λ axis, NInt (axis_size axis)) axes
         | SizeNumber n => [n; n]
         | SizeSeq l => l
         end in
       let output_size := SizeSeq sizes in
       perform D (NewFigure (map (λ size, truediv size dpi) sizes) dpi);;
       let supported_format := sorted (supported_filetypes D) in
       (if bool_decide (extension filename ∉ supported_format) then
          (if scalebar then
             raise (ValueError ("Exporting image with scalebar is supported "
                                +:+ "only with " +:+ join ", " supported_format +:+ "."))
           else (mret tt : M unit));;
          (if truthy_size output_size then
             raise (ValueError ("Setting the output size is only supported "
                                +:+ "with " +:+ join ", " supported_format +:+ "."))
           else (mret tt : M unit))
        else mret tt);;
       (mret (Some axes, true, output_size) : M (option (list Axis) * bool * size_arg))
     else mret (None, false, output_size));
  (if scalebar then
     axes ← lift (bound "axes" axes);
     a0 ← lift (getitem axes 0);
     a1 ← lift (getitem axes 1);
     if negb (PrimFloat.eqb (axis_scale a0) (axis_scale a1))
        || bool_decide (axis_units a0 ≠ axis_units a1)
     then raise (ValueError ("Scale and units must be the same for each axes "
                             +:+ "to export images with a scale bar."))
     else (mret tt : M unit)
   else mret tt);;
  if scalebar || truthy_size output_size then
    (if fig : bool then (mret tt : M unit) else raise (UnboundLocalError "fig"));;
    perform D (AddAxes [0; 0; 1; 1]%Z);;
    perform D AxisOff;;
    perform D (Imshow data "gray");;
    (if scalebar then
       axes ← lift (bound "axes" axes);
       axis ← lift (getitem axes 0);
       let '(units, scalebar_kwds) :=
         match axis_units axis with
         | Undefined => ("px", <["dimension" := VStr "pixel-length"]> scalebar_kwds)
         | Units u => (u, scalebar_kwds)
         end in
       reciprocal ← lift (check_reciprocal_length D units);
       let scalebar_kwds :=
         if reciprocal : bool
         then <["dimension" := VStr "si-length-reciprocal"]> scalebar_kwds
         else scalebar_kwds in
       perform D (NewScaleBar (axis_scale axis) units scalebar_kwds);;
       perform D AddArtist
     else mret tt);;
    perform D (Savefig filename dpi kwds)
  else
    perform D (Imwrite filename data kwds).

(** [(dc[:, :, 1] == dc[:, :, 2]).all()] *)
Definition channels_1_2_equal (dc : ndarray) : result bool :=
  c1 ← index_axis2 1 dc;
  c2 ← index_axis2 2 dc;
  mret (eq_all c1 c2).

(** [_read_data], lines 186-196.  The keyword options are received and
    not used: [imread] is called with the file name alone. *)
Definition _read_data (filename : string) (kwds : kwargs) : M ndarray :=
  dc ← call_imread D filename ∅;
  if decide (2 < length (shape dc)) then
    first ← lift (channels_1_2_equal dc);
    second ← (if first : bool then lift (channels_1_2_equal dc) else mret false);
    if first && second then lift (index_axis2 0 dc)
    else lift (regular_array2rgbx D dc)
  else mret dc.

(** [file_reader], lines 149-183. *)
Definition file_reader (filename : string) (kwds : kwargs) : M (list read_result) :=
  dc ← _read_data filename kwds;
  let lazy := default (VBool false) (kwds !! "lazy") in
  let kwds := delete "lazy" kwds in
  let dc := if truthy lazy
            then Delayed filename ∅ (shape dc) (arr_dtype dc)
            else Eager dc in
  mret [ {| data := dc;
            original_filename := (OsPath.split filename).2;
            signal_type := "";
            record_by := "image" |} ].

End Plugin.

End Image.
Export Image.

(** ** A reference set of delegates

    Concrete delegates on which the plugin can be run: a three-file store
    for the codec, the file types of the Agg rasterizer, a unit registry that
    knows a few units, and delegates that never raise otherwise. *)

Module Reference.

(** Modelled from the spec: [hyperspy.misc.rgb_tools] is not under src/.  The
    packed RGB(A) representation holds "one composite value per pixel": the
    channels of a pixel, [bits] wide each, side by side in one integer. *)
Fixpoint pack (bits : Z) (cs : list Z) : Z :=
  match cs with
  | [] => 0%Z
  | c :: cs' => Z.lor c (Z.shiftl (pack bits cs') bits)
  end.

Fixpoint unpack (bits : Z) (n : nat) (v : Z) : list Z :=
  match n with
  | 0 => []
  | S n' => Z.land v (Z.ones bits) :: unpack bits n' (Z.shiftr v bits)
  end.

Fixpoint chunks (count width : nat) (l : list Z) : list (list Z) :=
  match count with
  | 0 => []
  | S n => take width l :: chunks n width (drop width l)
  end.

Definition sample_bits (dt : dtype) : Z :=
  match dt with
  | uint8 | rgb8 | rgba8 => 8
  | uint16 | rgb16 | rgba16 => 16
  | uint32 => 32
  end%Z.

Definition channels (dt : dtype) : nat :=
  match dt with
  | rgb8 | rgb16 => 3
  | rgba8 | rgba16 => 4
  | _ => 1
  end.

(** Modelled from the spec: [rgb_tools.is_rgbx], whether the array is in the
    packed RGB(A) representation. *)
Definition is_rgbx (a : ndarray) : bool :=
  bool_decide (arr_dtype a ∈ [rgb8; rgba8; rgb16; rgba16]).

(** Modelled from the spec: [rgb_tools.rgbx2regular_array], "packed-RGB(A)
    unpacking back to plain channel form": a channel axis is appended. *)
Definition rgbx2regular_array (a : ndarray) : ndarray :=
  let dt := arr_dtype a in
  {| arr_dtype := if decide (sample_bits dt = 8%Z) then uint8 else uint16;
     shape := shape a ++ [channels dt];
     buffer := concat (map (unpack (sample_bits dt) (channels dt)) (buffer a)) |}.

(** Modelled from the spec: [rgb_tools.regular_array2rgbx], the re-encoding of
    a multi-channel array "into the host's internal packed-RGB(A)
    representation"; the channel axis has length 3 (RGB) or 4 (RGBA) and
    becomes the element, of 8 or 16 bits a channel. *)
Definition regular_array2rgbx (a : ndarray) : result ndarray :=
  let c := List.last (shape a) 0 in
  let outer := removelast (shape a) in
  match c, arr_dtype a with
  | 3, uint8 => Return (mk_ndarray rgb8 outer (map (pack 8) (chunks (numel outer) 3 (buffer a))))
  | 4, uint8 => Return (mk_ndarray rgba8 outer (map (pack 8) (chunks (numel outer) 4 (buffer a))))
  | 3, uint16 => Return (mk_ndarray rgb16 outer (map (pack 16) (chunks (numel outer) 3 (buffer a))))
  | 4, uint16 => Return (mk_ndarray rgba16 outer (map (pack 16) (chunks (numel outer) 4 (buffer a))))
  | _, _ => Raise (ValueError "not a 3 or 4 channel array of 8 or 16 bit samples")
  end.

(** A decoded grayscale image stored as RGB (2 x 2 x 3, all channels equal),
    a colour image (1 x 2 x 3), and a gray+alpha image (1 x 1 x 2). *)
Definition gray_rgb : ndarray :=
  mk_ndarray uint8 [2; 2; 3] [10; 10; 10; 20; 20; 20; 30; 30; 30; 40; 40; 40]%Z.

Definition colour_rgb : ndarray :=
  mk_ndarray uint8 [1; 2; 3] [255; 0; 0; 0; 128; 255]%Z.

Definition gray_alpha : ndarray :=
  mk_ndarray uint8 [1; 1; 2] [7; 255]%Z.

Definition gray_2d : ndarray :=
  mk_ndarray uint8 [2; 2] [1; 2; 3; 4]%Z.

(** The codec of the reference delegates: it decodes by file name and takes
    any options. *)
Definition imread (uri : string) (kwds : kwargs) : result ndarray :=
  if String.eqb uri "gray.png" then Return gray_rgb
  else if String.eqb uri "colour.png" then Return colour_rgb
  else if String.eqb uri "gray_alpha.png" then Return gray_alpha
  else Raise (DelegateError "FileNotFoundError" uri).

(** [get_supported_filetypes()] of the Agg canvas, in its own order. *)
Definition agg_filetypes : list string :=
  ["eps"; "jpg"; "jpeg"; "pdf"; "pgf"; "png"; "ps"; "raw"; "rgba";
   "svg"; "svgz"; "tif"; "tiff"; "webp"].

(** A unit registry that knows these units. *)
Definition check_reciprocal_length (units : string) : result bool :=
  if String.eqb units "1/nm" then Return true
  else if String.eqb units "nm" then Return false
  else if String.eqb units "in" then Return false
  else if String.eqb units "px" then Return false
  else Raise (DelegateError "UndefinedUnitError" units).

Definition delegates : Delegates :=
  {| Host.imread := imread;
     outcome := λ _, None;
     Host.is_rgbx := is_rgbx;
     Host.rgbx2regular_array := rgbx2regular_array;
     Host.regular_array2rgbx := regular_array2rgbx;
     scalebar_importable := true;
     supported_filetypes := agg_filetypes;
     Host.check_reciprocal_length := check_reciprocal_length |}.

(** Signals: a 4 x 4 image with two signal axes, and the same with a scale
    that differs between the axes. *)
Definition image_4x4 : ndarray :=
  mk_ndarray uint8 [4; 4] [0; 1; 2; 3; 4; 5; 6; 7; 8; 9; 10; 11; 12; 13; 14; 15]%Z.

Definition axis_of (sc : float) (u : units_t) : Axis :=
  {| axis_size := 4; axis_scale := sc; axis_units := u |}.

Definition signal2d (a0 a1 : Axis) : Signal :=
  {| signal_data := image_4x4;
     axes_manager := {| signal_axes := [a0; a1]; navigation_axes := [] |} |}.

(** The same data seen as a 4 x 4 map of points (two navigation axes, no
    signal axis), and as 4 spectra of 4 channels (one axis of each kind). *)
Definition map2d (a0 a1 : Axis) : Signal :=
  {| signal_data := image_4x4;
     axes_manager := {| signal_axes := []; navigation_axes := [a0; a1] |} |}.

Definition line_scan (a0 a1 : Axis) : Signal :=
  {| signal_data := image_4x4;
     axes_manager := {| signal_axes := [a0]; navigation_axes := [a1] |} |}.

(** Axes in nanometres, in pixels (no units) and in reciprocal nanometres,
    all of scale 1. *)
Definition nm : Axis := axis_of 1%float (Units "nm").

End Reference.

(** ** The writer's algorithm, step by step

    [file_writer] is one function.  The definitions below name its stages
    the way the specification lists them (mode selection, then steps 1-6 of the
    rendered write); [file_writer_rendered] and [file_writer_direct] show that
    the function is their composition. *)

Module Steps.

Section WithDelegates.
Context (D : Delegates).

(** The pixel array handed to the codec or the canvas: unpacked when it is
    in the packed RGB(A) representation. *)
Definition plain_data (signal : Signal) : ndarray :=
  if is_rgbx D (signal_data signal) then rgbx2regular_array D (signal_data signal)
  else signal_data signal.

Definition import_warning : event :=
  LogWarning "Exporting image with scalebar requires the matplotlib-scalebar library.".

(** The calls recorded while the overlay library is looked for. *)
Definition import_trace (scalebar : bool) : list event :=
  if scalebar && negb (scalebar_importable D) then [import_warning] else [].

(** Whether a scale bar will be drawn. *)
Definition effective_scalebar (scalebar : bool) : bool :=
  scalebar && scalebar_importable D.

(** Mode selection, first half: the overlay library is looked for when a
    scale bar is requested; without it the request is dropped with a
    warning. *)
Definition import_scalebar (scalebar : bool) : M bool :=
  (import_trace scalebar, Return (effective_scalebar scalebar)).

(** The write is rendered through a figure. *)
Definition rendered (scalebar : bool) (output_size : size_arg) : bool :=
  effective_scalebar scalebar || truthy_size output_size.

(** Step 1: the pair of axes. *)
Definition select_axes (signal : Signal) : result (list Axis) :=
  if bool_decide (length (signal_axes (axes_manager signal)) = 2) then
    Return (signal_axes (axes_manager signal))
  else if bool_decide (length (navigation_axes (axes_manager signal)) = 2) then
    Return (navigation_axes (axes_manager signal))
  else Raise (ValueError "Data not compatible with saving scale bar.").

(** Step 2: the output size. *)
Definition resolve_output_size (output_size : size_arg) (axes : list Axis) : list number :=
  match output_size with
  | SizeNone => map (λ axis, NInt (axis_size axis)) axes
  | SizeNumber n => [n; n]
  | SizeSeq l => l
  end.

(** Step 3: the canvas. *)
Definition figsize (sizes : list number) : list float :=
  map (λ size, truediv size dpi) sizes.

Definition scalebar_format_message : string :=
  "Exporting image with scalebar is supported only with "
  +:+ join ", " (sorted (supported_filetypes D)) +:+ ".".

Definition size_format_message : string :=
  "Setting the output size is only supported with "
  +:+ join ", " (sorted (supported_filetypes D)) +:+ ".".

(** Step 4: the output format. *)
Definition format_gate (filename : string) (scalebar : bool) (sizes : list number) : M unit :=
  if bool_decide (extension filename ∉ sorted (supported_filetypes D)) then
    if scalebar then raise (ValueError scalebar_format_message)
    else if truthy_size (SizeSeq sizes) then raise (ValueError size_format_message)
    else mret tt
  else mret tt.

Definition mismatch_message : string :=
  "Scale and units must be the same for each axes to export images with a scale bar.".

(** Whether the two axes disagree on scale or on units. *)
Definition mismatch (a0 a1 : Axis) : bool :=
  negb (PrimFloat.eqb (axis_scale a0) (axis_scale a1))
  || bool_decide (axis_units a0 ≠ axis_units a1).

(** Step 5, first half: the calibration of the two axes. *)
Definition calibration_check (scalebar : bool) (axes : list Axis) : M unit :=
  if scalebar then
    a0 ← lift (getitem axes 0);
    a1 ← lift (getitem axes 1);
    if mismatch a0 a1 then raise (ValueError mismatch_message) else mret tt
  else mret tt.

(** The units the scale bar is labelled with. *)
Definition scalebar_units (u : units_t) : string :=
  match u with
  | Undefined => "px"
  | Units s => s
  end.

(** The keyword dictionary of the scale bar, from the configuration [kw],
    the units of axis 0 and the verdict of the unit registry on the label. *)
Definition scalebar_config (kw : kwargs) (u : units_t) (reciprocal : bool) : kwargs :=
  let kw := match u with
            | Undefined => <["dimension" := VStr "pixel-length"]> kw
            | Units _ => kw
            end in
  if reciprocal then <["dimension" := VStr "si-length-reciprocal"]> kw else kw.

(** Step 5, second half: the scale bar. *)
Definition draw_scalebar (axes : list Axis) (kw : kwargs) : M unit :=
  axis ← lift (getitem axes 0);
  reciprocal ← lift (check_reciprocal_length D (scalebar_units (axis_units axis)));
  perform D (NewScaleBar (axis_scale axis) (scalebar_units (axis_units axis))
                         (scalebar_config kw (axis_units axis) reciprocal));;
  perform D AddArtist.

(** Steps 2-6 on a chosen pair of axes. *)
Definition rendered_write (filename : string) (data : ndarray) (axes : list Axis)
    (scalebar : bool) (kw : kwargs) (output_size : size_arg) (kwds : kwargs) : M unit :=
  let sizes := resolve_output_size output_size axes in
  perform D (NewFigure (figsize sizes) dpi);;
  format_gate filename scalebar sizes;;
  calibration_check scalebar axes;;
  perform D (AddAxes [0; 0; 1; 1]%Z);;
  perform D AxisOff;;
  perform D (Imshow data "gray");;
  (if scalebar then draw_scalebar axes kw else mret tt);;
  perform D (Savefig filename dpi kwds).

(** The calls of a rendered write that runs to its end, with the scale bar
    [bar] (its length per pixel, label and configuration) when one is drawn. *)
Definition rendered_trace (filename : string) (data : ndarray) (sizes : list number)
    (bar : option (float * string * kwargs)) (kwds : kwargs) : list event :=
  [NewFigure (figsize sizes) dpi; AddAxes [0; 0; 1; 1]%Z; AxisOff; Imshow data "gray"]
  ++ match bar with
     | Some (dx, units, kw) => [NewScaleBar dx units kw; AddArtist]
     | None => []
     end
  ++ [Savefig filename dpi kwds].

(** The configuration of the scale bar before the units are looked at. *)
Definition initial_scalebar_kwds (scalebar_kwds : option kwargs) : kwargs :=
  default default_scalebar_kwds scalebar_kwds.

(** Mode selection and steps 2-6, on a given pair of axes. *)
Definition write_rendered_on (filename : string) (signal : Signal) (axes : list Axis)
    (scalebar : bool) (scalebar_kwds : option kwargs) (output_size : size_arg)
    (kwds : kwargs) : M unit :=
  sb ← import_scalebar scalebar;
  rendered_write filename (plain_data signal) axes sb
    (initial_scalebar_kwds scalebar_kwds) output_size kwds.

(** Every delegate call succeeds. *)
Definition all_succeed : Prop := ∀ e, outcome D e = None.


End WithDelegates.

End Steps.
Export Steps.

(** ** The reader's collapse step

    Lines 188-196 of [_read_data], after the file is decoded: the part the
    specification calls the grayscale-collapse helper.  It makes no delegate
    call; [read_data_collapse] shows that [_read_data] is the decode followed
    by it. *)

Module Collapse.

Definition grayscale_collapse (D : Delegates) (dc : ndarray) : result ndarray :=
  if decide (2 < length (shape dc)) then
    first ← channels_1_2_equal dc;
    second ← (if first : bool then channels_1_2_equal dc else Return false);
    if first && second then index_axis2 0 dc
    else regular_array2rgbx D dc
  else Return dc.

End Collapse.
Export Collapse.

(** ** Entries of an array along axis 2 *)

Module Axis2.

(** [a[..., k, ...]] with [k] on axis 2: the entry at position [m] of the
    flattened axes 0 and 1 and position [r] of the flattened axes after 2. *)
Definition entry_axis2 (a : ndarray) (m k r : nat) : Z :=
  match shape a with
  | _ :: _ :: d2 :: rest => nth ((m * d2 + k) * numel rest + r) (buffer a) 0%Z
  | _ => 0%Z
  end.

(** The entry at [m], [r] of an array that has lost axis 2. *)
Definition entry_sliced (g : ndarray) (m r : nat) : Z :=
  match shape g with
  | _ :: _ :: rest => nth (m * numel rest + r) (buffer g) 0%Z
  | _ => 0%Z
  end.

End Axis2.
Export Axis2.

(** ** The reader with the channel test evaluated once *)

Module SingleTest.

(** [_read_data] with [(dc[:, :, 1] == dc[:, :, 2]).all()] written once
    instead of twice. *)
Definition read_data_single_test (D : Delegates) (filename : string) : M ndarray :=
  dc ← call_imread D filename ∅;
  if decide (2 < length (shape dc)) then
    equal ← lift (channels_1_2_equal dc);
    if equal : bool then lift (index_axis2 0 dc)
    else lift (regular_array2rgbx D dc)
  else mret dc.

(** The one record [file_reader] returns for the array node [node]. *)
Definition read_record (filename : string) (node : array_node) : read_result :=
  {| data := node;
     original_filename := (OsPath.split filename).2;
     signal_type := "";
     record_by := "image" |}.

(** [kwds.pop('lazy', False)], as a truth value. *)
Definition lazy_requested (kwds : kwargs) : bool :=
  truthy (default (VBool false) (kwds !! "lazy")).

End SingleTest.
Export SingleTest.

(** ** Variants of the reference delegates *)

Module Variants.

(** A codec that decodes every file to the array [a]. *)
Definition decoding (a : ndarray) : Delegates :=
  {| imread := λ _ _, Return a;
     outcome := λ _, None;
     is_rgbx := Reference.is_rgbx;
     rgbx2regular_array := Reference.rgbx2regular_array;
     regular_array2rgbx := Reference.regular_array2rgbx;
     scalebar_importable := true;
     supported_filetypes := Reference.agg_filetypes;
     check_reciprocal_length := Reference.check_reciprocal_length |}.

(** The reference delegates without the overlay library. *)
Definition without_scalebar : Delegates :=
  {| imread := Reference.imread;
     outcome := λ _, None;
     is_rgbx := Reference.is_rgbx;
     rgbx2regular_array := Reference.rgbx2regular_array;
     regular_array2rgbx := Reference.regular_array2rgbx;
     scalebar_importable := false;
     supported_filetypes := Reference.agg_filetypes;
     check_reciprocal_length := Reference.check_reciprocal_length |}.

(** The reference delegates with a rasterizer whose [savefig] fails. *)
Definition failing_savefig : Delegates :=
  {| imread := Reference.imread;
     outcome := λ e, match e with
                     | Savefig _ _ _ => Some (DelegateError "OSError" "disk full")
                     | _ => None
                     end;
     is_rgbx := Reference.is_rgbx;
     rgbx2regular_array := Reference.rgbx2regular_array;
     regular_array2rgbx := Reference.regular_array2rgbx;
     scalebar_importable := true;
     supported_filetypes := Reference.agg_filetypes;
     check_reciprocal_length := Reference.check_reciprocal_length |}.

(** A stack of two-pixel colour planes (1 x 2 x 3 x 2) whose planes 1 and 2
    agree, and a variant in which they do not. *)
Definition stack_equal : ndarray :=
  mk_ndarray uint8 [1; 2; 3; 2] [1; 2; 5; 6; 5; 6; 3; 4; 7; 8; 7; 8]%Z.

Definition stack_unequal : ndarray :=
  mk_ndarray uint8 [1; 2; 3; 2] [1; 2; 5; 6; 5; 9; 3; 4; 7; 8; 7; 8]%Z.

(** An axis in furlongs, a unit the reference registry does not know. *)
Definition furlong : Axis := Reference.axis_of 1%float (Units "furlong").

End Variants.

(** ** The writer as a plan of guarded calls

    [file_writer] runs a fixed sequence of delegate calls and checks and
    stops at the first that fails.  [writer_plan] computes that sequence
    from the arguments and the answers of the pure delegates; [run_steps]
    runs a sequence. *)

Module Plan.

Inductive step :=
| Call (e : event)         (* a delegate call, which may raise *)
| Note (e : event)         (* a call that does not raise: logging *)
| Guard (r : result unit). (* a check, or a query that may raise *)

Definition run_step (D : Delegates) (s : step) : M unit :=
  match s with
  | Call e => perform D e
  | Note e => log e
  | Guard r => lift r
  end.

Fixpoint run_steps (D : Delegates) (ss : list step) : M unit :=
  match ss with
  | [] => mret tt
  | s :: ss' => run_step D s;; run_steps D ss'
  end.

(** The calls a step records, and the error it stops the run with. *)
Definition step_events (s : step) : list event :=
  match s with
  | Call e | Note e => [e]
  | Guard _ => []
  end.

Definition step_error (D : Delegates) (s : step) : option exn :=
  match s with
  | Call e => outcome D e
  | Note _ => None
  | Guard (Return _) => None
  | Guard (Raise x) => Some x
  end.

Definition plan_events (ss : list step) : list event :=
  concat (map step_events ss).

(** The calls that neither decode nor write a file: the warning and the
    calls to the figure, its axes and the scale bar. *)
Definition canvas_call (e : event) : bool :=
  match e with
  | Imread _ _ | Imwrite _ _ _ | Savefig _ _ _ => false
  | _ => true
  end.

Section WithDelegates.
Context (D : Delegates).

(** Step 4 and the first half of step 5, as checks. *)
Definition format_guard (filename : string) (sb : bool) (sizes : list number) : result unit :=
  if bool_decide (extension filename ∉ sorted (supported_filetypes D)) then
    if sb then Raise (ValueError (scalebar_format_message D))
    else if truthy_size (SizeSeq sizes) then Raise (ValueError (size_format_message D))
    else Return tt
  else Return tt.

Definition calibration_guard (sb : bool) (axes : list Axis) : result unit :=
  if sb then
    a0 ← getitem axes 0;
    a1 ← getitem axes 1;
    if mismatch a0 a1 then Raise (ValueError mismatch_message) else Return tt
  else Return tt.

(** The second half of step 5: the query to the unit registry, then the two
    calls that draw the scale bar. *)
Definition scalebar_steps (axes : list Axis) (kw : kwargs) : list step :=
  match getitem axes 0 with
  | Raise x => [Guard (Raise x)]
  | Return axis =>
      match check_reciprocal_length D (scalebar_units (axis_units axis)) with
      | Raise x => [Guard (Raise x)]
      | Return r =>
          [Call (NewScaleBar (axis_scale axis) (scalebar_units (axis_units axis))
                   (scalebar_config kw (axis_units axis) r));
           Call AddArtist]
      end
  end.

(** What precedes the save in a rendered write. *)
Definition rendered_checks (filename : string) (data : ndarray) (axes : list Axis)
    (sb : bool) (kw : kwargs) (output_size : size_arg) : list step :=
  [Call (NewFigure (figsize (resolve_output_size output_size axes)) dpi);
   Guard (format_guard filename sb (resolve_output_size output_size axes));
   Guard (calibration_guard sb axes);
   Call (AddAxes [0; 0; 1; 1]%Z);
   Call AxisOff;
   Call (Imshow data "gray")]
  ++ (if sb then scalebar_steps axes kw else []).

(** The call that writes the file. *)
Definition final_call (filename : string) (signal : Signal) (scalebar : bool)
    (output_size : size_arg) (kwds : kwargs) : event :=
  if rendered D scalebar output_size then Savefig filename dpi kwds
  else Imwrite filename (plain_data D signal) kwds.

(** What precedes the call that writes the file, or the failed choice of
    axes. *)
Definition writer_checks (filename : string) (signal : Signal) (scalebar : bool)
    (scalebar_kwds : option kwargs) (output_size : size_arg) : list step :=
  (if scalebar && negb (scalebar_importable D) then [Note import_warning] else [])
  ++ (if rendered D scalebar output_size then
        match select_axes signal with
        | Raise x => [Guard (Raise x)]
        | Return axes =>
            rendered_checks filename (plain_data D signal) axes
              (effective_scalebar D scalebar) (initial_scalebar_kwds scalebar_kwds)
              output_size
        end
      else []).

Definition writer_plan (filename : string) (signal : Signal) (scalebar : bool)
    (scalebar_kwds : option kwargs) (output_size : size_arg) (kwds : kwargs) : list step :=
  writer_checks filename signal scalebar scalebar_kwds output_size
  ++ [Call (final_call filename signal scalebar output_size kwds)].

(** The four messages of the writer's own errors. *)
Definition writer_messages : list string :=
  ["Data not compatible with saving scale bar.";
   scalebar_format_message D;
   size_format_message D;
   mismatch_message].

End WithDelegates.

End Plan.
Export Plan.

(** ** What the overlay library and the rasterizer do with the calls

    The scale-bar overlay and the rasterizer are delegates; two facts
    about them give the calls of the writer their meaning. *)

Module Overlay.



End Overlay.
Export Overlay.

Module Rasterizer.

(** [int(f)]: the integer part of a finite float, towards zero. *)
Definition float_to_int (f : float) : option Z :=
  match Prim2SF f with
  | S754_zero _ => Some 0%Z
  | S754_finite s m e =>
      let magnitude :=
        if (0 <=? e)%Z then Z.shiftl (Zpos m) e else Z.shiftr (Zpos m) (- e) in
      Some (if s then (- magnitude)%Z else magnitude)
  | _ => None
  end.

(** The Agg canvas: a side of [inches] at the density [density] is rendered
    on [int(inches * density)] pixels. *)
Definition canvas_pixels (inches : float) (density : Z) : option Z :=
  float_to_int (PrimFloat.mul inches (float_of_int density)).

(** The shape (rows, columns) of the image saved from a figure of size
    [figsize] = (width, height) at the density [density]. *)
Definition image_shape (figsize : list float) (density : Z) : option (list Z) :=
  match figsize with
  | [width; height] =>
      match canvas_pixels height density, canvas_pixels width density with
      | Some rows, Some columns => Some [rows; columns]
      | _, _ => None
      end
  | _ => None
  end.

End Rasterizer.
Export Rasterizer.

(** ** Sizes that divide as in Python *)

Module Range.

(** For an [int] below 2^53 in absolute value, Python's [size / 100] is the
    float [truediv] computes, and it does not overflow; for a [float] it
    always is. *)
Definition in_float_range (n : number) : Prop :=
  match n with
  | NInt z => (Z.abs z < 2 ^ 53)%Z
  | NFloat _ => True
  end.

End Range.
Export Range.

(** * Properties *)

(** ** Laws of the monad *)

Module MonadLaws.

Lemma M_ret_bind {A B} (a : A) (f : A → M B) : mret a ≫= f = f a.
Proof. unfold mbind, M_bind, mret, M_ret. cbn. by destruct (f a). Qed.

Lemma M_bind_assoc {A B C} (m : M A) (f : A → M B) (g : B → M C) :
  (m ≫= f) ≫= g = m ≫= (λ a, f a ≫= g).
Proof.
  unfold mbind, M_bind. destruct m as [t [a|e]]; cbn; [|done].
  destruct (f a) as [t' [b|e]]; cbn; [|done].
  by rewrite app_assoc.
Qed.

Lemma M_raise_bind {A B} (e : exn) (f : A → M B) : raise e ≫= f = raise e.
Proof. done. Qed.

Lemma M_lift_return_bind {A B} (a : A) (f : A → M B) : lift (Return a) ≫= f = f a.
Proof. apply M_ret_bind. Qed.

Lemma M_lift_raise_bind {A B} (e : exn) (f : A → M B) : lift (Raise e) ≫= f = raise e.
Proof. done. Qed.

Lemma M_bind_ext {A B} (m : M A) (f g : A → M B) :
  (∀ a, f a = g a) → m ≫= f = m ≫= g.
Proof.
  intros H. unfold mbind, M_bind. destruct m as [t [a|e]]; cbn; [|done].
  by rewrite H.
Qed.

Lemma M_bind_ext_at {A B} (t : list event) (a : A) (f g : A → M B) :
  f a = g a → ((t, Return a) : M A) ≫= f = ((t, Return a) : M A) ≫= g.
Proof. intros H. unfold mbind, M_bind. cbn. by rewrite H. Qed.

Lemma M_bind_if {A B} (b : bool) (m1 m2 : M A) (f : A → M B) :
  (if b then m1 else m2) ≫= f = if b then m1 ≫= f else m2 ≫= f.
Proof. by destruct b. Qed.

(** The trace and the result of a call followed by a continuation. *)
Lemma perform_bind_ok {B} D (e : event) (k : unit → M B) :
  outcome D e = None → perform D e ≫= k = (e :: (k tt).1, (k tt).2).
Proof. intros H. unfold mbind, M_bind, perform. by rewrite H. Qed.

Lemma perform_bind_raise {B} D (e : event) (x : exn) (k : unit → M B) :
  outcome D e = Some x → perform D e ≫= k = ([e], Raise x).
Proof. intros H. unfold mbind, M_bind, perform. by rewrite H. Qed.

Lemma log_bind {B} (e : event) (k : unit → M B) :
  log e ≫= k = (e :: (k tt).1, (k tt).2).
Proof. done. Qed.

End MonadLaws.
Import MonadLaws.

Ltac monad_norm :=
  repeat first
    [ rewrite M_bind_assoc
    | rewrite M_ret_bind
    | rewrite M_raise_bind
    | rewrite M_lift_return_bind
    | rewrite M_lift_raise_bind ].

Module WriterFacts.

Section WithDelegates.
Context (D : Delegates).

Lemma rendered_resolved_truthy scalebar output_size axes :
  rendered D scalebar output_size = true →
  effective_scalebar D scalebar
    || truthy_size (SizeSeq (resolve_output_size output_size axes)) = true.
Proof.
  unfold rendered. destruct (effective_scalebar D scalebar); [done|]. cbn.
  by destruct output_size as [|n|l].
Qed.

Lemma file_writer_rendered filename signal scalebar scalebar_kwds output_size kwds :
  rendered D scalebar output_size = true →
  file_writer D filename signal scalebar scalebar_kwds output_size kwds =
    (sb ← import_scalebar D scalebar;
     axes ← lift (select_axes signal);
     rendered_write D filename (plain_data D signal) axes sb
       (initial_scalebar_kwds scalebar_kwds) output_size kwds).
Proof.
  intros Hr.
  assert (Himp :
    (if scalebar then
       if scalebar_importable D then (mret true : M bool)
       else log (LogWarning
              "Exporting image with scalebar requires the matplotlib-scalebar library.");;
            mret false
     else mret false) = import_scalebar D scalebar).
  { unfold import_scalebar, import_trace, effective_scalebar.
    by destruct scalebar, (scalebar_importable D). }
  unfold file_writer. rewrite Himp. clear Himp.
  unfold import_scalebar. apply M_bind_ext_at.
  fold (effective_scalebar D scalebar || truthy_size output_size).
  fold (rendered D scalebar output_size). rewrite Hr.
  set (sb := effective_scalebar D scalebar) in *.
  fold (plain_data D signal). fold (initial_scalebar_kwds scalebar_kwds).
  rewrite M_bind_assoc.
  assert (Hsel :
    (if bool_decide (length (signal_axes (axes_manager signal)) = 2) then
       (mret (signal_axes (axes_manager signal)) : M (list Axis))
     else if bool_decide (length (navigation_axes (axes_manager signal)) = 2) then
       mret (navigation_axes (axes_manager signal))
     else raise (ValueError "Data not compatible with saving scale bar."))
    = lift (select_axes signal)).
  { unfold select_axes. by repeat case_bool_decide. }
  rewrite Hsel. clear Hsel.
  apply M_bind_ext. intros axes.
  unfold rendered_write. fold (resolve_output_size output_size axes).
  fold (figsize (resolve_output_size output_size axes)).
  pose proof (rendered_resolved_truthy scalebar output_size axes Hr) as Ht.
  fold sb in Ht.
  rewrite !M_bind_assoc. apply M_bind_ext. intros _.
  assert (Hgate :
    ∀ (k : unit → M unit),
    ((if bool_decide (extension filename ∉ sorted (supported_filetypes D)) then
       (if sb then
          raise (ValueError ("Exporting image with scalebar is supported "
                             +:+ "only with "
                             +:+ join ", " (sorted (supported_filetypes D)) +:+ "."))
        else (mret tt : M unit));;
       (if truthy_size (SizeSeq (resolve_output_size output_size axes)) then
          raise (ValueError ("Setting the output size is only supported "
                             +:+ "with "
                             +:+ join ", " (sorted (supported_filetypes D)) +:+ "."))
        else (mret tt : M unit))
      else mret tt) ≫= k)
    = format_gate D filename sb (resolve_output_size output_size axes) ≫= k).
  { intros k. unfold format_gate, scalebar_format_message, size_format_message.
    case_bool_decide; [|done].
    destruct sb; monad_norm; [done|].
    by destruct (truthy_size _). }
  rewrite Hgate. clear Hgate. apply M_bind_ext. intros _.
  rewrite M_ret_bind. cbn [bound]. rewrite Ht.
  unfold calibration_check, draw_scalebar, mismatch, mismatch_message.
  destruct sb; monad_norm.
  - destruct (getitem axes 0) as [a0|e]; monad_norm; [|done].
    destruct (getitem axes 1) as [a1|e]; monad_norm; [|done].
    rewrite !M_bind_if. monad_norm.
    clear Ht. destruct (negb _ || _); [done|].
    repeat (apply M_bind_ext; intros _).
    monad_norm.
    destruct (axis_units a0); cbn [scalebar_units scalebar_config];
      monad_norm; apply M_bind_ext; intros [|]; by monad_norm.
  - reflexivity.
Qed.

Lemma file_writer_direct filename signal scalebar scalebar_kwds output_size kwds :
  rendered D scalebar output_size = false →
  file_writer D filename signal scalebar scalebar_kwds output_size kwds =
    (import_scalebar D scalebar;;
     perform D (Imwrite filename (plain_data D signal) kwds)).
Proof.
  intros Hr.
  assert (Himp :
    (if scalebar then
       if scalebar_importable D then (mret true : M bool)
       else log (LogWarning
              "Exporting image with scalebar requires the matplotlib-scalebar library.");;
            mret false
     else mret false) = import_scalebar D scalebar).
  { unfold import_scalebar, import_trace, effective_scalebar.
    by destruct scalebar, (scalebar_importable D). }
  unfold file_writer. rewrite Himp. clear Himp.
  unfold import_scalebar. apply M_bind_ext_at.
  fold (effective_scalebar D scalebar || truthy_size output_size).
  fold (rendered D scalebar output_size). rewrite Hr.
  fold (plain_data D signal).
  monad_norm.
  unfold rendered in Hr. apply orb_false_elim in Hr as [-> Ht].
  cbn [orb]. rewrite Ht. by monad_norm.
Qed.
End WithDelegates.

End WriterFacts.

(** ** The rendered write, case by case *)

Module RenderFacts.

Lemma elem_of_sorted (x : string) (l : list string) : x ∈ sorted l ↔ x ∈ l.
Proof. unfold sorted. by rewrite merge_sort_Permutation. Qed.

Section WithDelegates.
Context (D : Delegates).

Lemma file_writer_on_axes filename signal scalebar scalebar_kwds output_size kwds axes :
  rendered D scalebar output_size = true →
  select_axes signal = Return axes →
  file_writer D filename signal scalebar scalebar_kwds output_size kwds =
    let run := rendered_write D filename (plain_data D signal) axes
                 (effective_scalebar D scalebar)
                 (initial_scalebar_kwds scalebar_kwds) output_size kwds in
    (import_trace D scalebar ++ run.1, run.2).
Proof.
  intros Hr Hsel.
  rewrite (WriterFacts.file_writer_rendered D) by done.
  rewrite Hsel. unfold import_scalebar.
  unfold mbind at 1. unfold M_bind. cbn [fst snd].
  by rewrite M_lift_return_bind.
Qed.

Lemma file_writer_no_axes filename signal scalebar scalebar_kwds output_size kwds e :
  rendered D scalebar output_size = true →
  select_axes signal = Raise e →
  file_writer D filename signal scalebar scalebar_kwds output_size kwds =
    (import_trace D scalebar, Raise e).
Proof.
  intros Hr Hsel.
  rewrite (WriterFacts.file_writer_rendered D) by done.
  rewrite Hsel. unfold import_scalebar.
  unfold mbind at 1. unfold M_bind. cbn [fst snd].
  rewrite M_lift_raise_bind. cbn. by rewrite app_nil_r.
Qed.

Lemma format_gate_pass filename sb sizes :
  extension filename ∈ supported_filetypes D →
  format_gate D filename sb sizes = mret tt.
Proof.
  intros Hin. unfold format_gate.
  rewrite bool_decide_eq_false_2; [done|].
  intros Hn. apply Hn. by apply elem_of_sorted.
Qed.




Lemma rendered_write_plain filename data axes kw output_size kwds :
  all_succeed D →
  extension filename ∈ supported_filetypes D →
  rendered_write D filename data axes false kw output_size kwds =
    (rendered_trace filename data (resolve_output_size output_size axes) None kwds,
     Return tt).
Proof.
  intros Hok Hin. unfold rendered_write.
  rewrite perform_bind_ok by apply Hok.
  rewrite format_gate_pass by done. rewrite M_ret_bind.
  unfold calibration_check. rewrite !M_ret_bind.
  rewrite !perform_bind_ok by apply Hok.
  unfold perform. by rewrite Hok.
Qed.



Lemma rendered_iff scalebar output_size :
  rendered D scalebar output_size = true
  ↔ (scalebar = true ∧ scalebar_importable D = true) ∨ truthy_size output_size = true.
Proof.
  unfold rendered, effective_scalebar.
  rewrite orb_true_iff, andb_true_iff. done.
Qed.

Lemma file_writer_write_rendered_on
    filename signal scalebar scalebar_kwds output_size kwds axes :
  rendered D scalebar output_size = true →
  select_axes signal = Return axes →
  file_writer D filename signal scalebar scalebar_kwds output_size kwds =
    write_rendered_on D filename signal axes scalebar scalebar_kwds output_size kwds.
Proof.
  intros Hr Hsel.
  rewrite (WriterFacts.file_writer_rendered D) by done.
  unfold write_rendered_on. apply M_bind_ext. intros sb.
  by rewrite Hsel, M_lift_return_bind.
Qed.

Lemma select_axes_length signal axes :
  select_axes signal = Return axes → length axes = 2.
Proof.
  unfold select_axes. repeat case_bool_decide; intros Hsel; by simplify_eq.
Qed.

End WithDelegates.

End RenderFacts.
Import RenderFacts.

(** ** Slicing a channel out of a 3-D array *)

Module NumpyFacts.

Lemma gather_one (n stride k : nat) (buf : list Z) :
  k < stride → length buf = n * stride →
  gather n stride k 1 buf = map (λ m, nth (m * stride + k) buf 0%Z) (seq 0 n).
Proof.
  intros Hk. revert buf. induction n as [|n IH]; intros buf Hlen; [done|].
  cbn [gather seq map].
  assert (Hlt : k < length buf) by lia.
  destruct (lookup_lt_is_Some_2 buf k Hlt) as [x Hx].
  rewrite (drop_S buf x k Hx). cbn [take app]. rewrite take_0.
  rewrite Nat.mul_0_l, Nat.add_0_l, nth_lookup, Hx. cbn [default].
  f_equal.
  rewrite IH by (rewrite length_drop; lia).
  rewrite <- seq_shift, map_map.
  apply map_ext. intros m.
  rewrite !nth_lookup, lookup_drop. do 2 f_equal. lia.
Qed.

Lemma eq_all_maps (d1 d2 : dtype) (s1 s2 : list nat) (f g : nat → Z) (n : nat) :
  eq_all (mk_ndarray d1 s1 (map f (seq 0 n))) (mk_ndarray d2 s2 (map g (seq 0 n))) = true
  ↔ ∀ m, m < n → f m = g m.
Proof.
  unfold eq_all. cbn [buffer].
  rewrite forallb_forall. split.
  - intros H m Hm.
    apply Z.eqb_eq. apply (H (f m, g m)).
    apply list_elem_of_In, list_elem_of_lookup. exists m.
    apply lookup_zip_with_Some. exists (f m), (g m).
    split; [done|].
    split; rewrite list_lookup_fmap, lookup_seq_lt by done; done.
  - intros H [x y] Hin.
    apply list_elem_of_In, list_elem_of_lookup in Hin as [m Hm].
    apply lookup_zip_with_Some in Hm as (x' & y' & Heq & Hx & Hy).
    injection Heq as -> ->.
    rewrite list_lookup_fmap in Hx, Hy.
    destruct (seq 0 n !! m) as [m'|] eqn:Hs; [|done].
    apply lookup_seq in Hs as [-> Hlt]. cbn in Hx, Hy.
    injection Hx as <-. injection Hy as <-.
    apply Z.eqb_eq. cbn. by apply H.
Qed.

Lemma pixel_index (h w : nat) (P : nat → Prop) :
  (∀ m, m < h * w → P m) ↔ (∀ i j, i < h → j < w → P (i * w + j)).
Proof.
  split.
  - intros H i j Hi Hj. apply H. nia.
  - intros H m Hm.
    assert (Hw : w ≠ 0) by (intros ->; lia).
    assert (Hdm : m = (m / w) * w + m mod w)
      by (rewrite (Nat.mul_comm (m / w)); apply Nat.div_mod_eq).
    rewrite Hdm. apply H.
    + apply Nat.Div0.div_lt_upper_bound. lia.
    + by apply Nat.mod_upper_bound.
Qed.

(** [dc[:, :, k]] of a 3-D array: its shape, and its entries. *)
Lemma index_axis2_3d (dc : ndarray) (h w c k : nat) :
  shape dc = [h; w; c] → k < c → wf_ndarray dc →
  index_axis2 k dc =
    Return (mk_ndarray (arr_dtype dc) [h; w]
              (map (λ m, nth (m * c + k) (buffer dc) 0%Z) (seq 0 (h * w)))).
Proof.
  intros Hs Hk Hwf. unfold index_axis2. rewrite Hs.
  rewrite decide_True by done. cbn [numel foldr].
  rewrite !Nat.mul_1_r. do 2 f_equal.
  apply gather_one; [done|].
  unfold wf_ndarray in Hwf. rewrite Hwf, Hs. cbn. lia.
Qed.

Lemma index_axis2_out_of_bounds (dc : ndarray) (d0 d1 d2 k : nat) (rest : list nat) :
  shape dc = d0 :: d1 :: d2 :: rest → d2 ≤ k →
  index_axis2 k dc = Raise (IndexError k 2 d2).
Proof.
  intros Hs Hk. unfold index_axis2. rewrite Hs.
  rewrite decide_False by lia. done.
Qed.

End NumpyFacts.
Import NumpyFacts.

(** ** The reader *)

Module ReaderFacts.

Section WithDelegates.
Context (D : Delegates).

Lemma read_data_collapse filename kwds :
  _read_data D filename kwds =
    (dc ← call_imread D filename ∅; lift (grayscale_collapse D dc)).
Proof.
  unfold _read_data, grayscale_collapse.
  apply M_bind_ext. intros dc.
  destruct (decide (2 < length (shape dc))); [|done].
  destruct (channels_1_2_equal dc) as [[|]|e]; cbn; [|done..].
  destruct (channels_1_2_equal dc) as [[|]|e]; cbn; done.
Qed.

(** The reader calls the codec once, with the file name and no option. *)
Lemma read_data_trace filename kwds :
  (_read_data D filename kwds).1 = [Imread filename ∅].
Proof.
  rewrite read_data_collapse. unfold call_imread, mbind, M_bind. cbn.
  by destruct (imread D filename ∅).
Qed.

Lemma read_data_decoded filename kwds dc :
  imread D filename ∅ = Return dc →
  _read_data D filename kwds = ([Imread filename ∅], grayscale_collapse D dc).
Proof.
  intros H. rewrite read_data_collapse.
  unfold call_imread, mbind, M_bind. cbn. by rewrite H.
Qed.

Lemma file_reader_trace filename kwds :
  (file_reader D filename kwds).1 = [Imread filename ∅].
Proof.
  unfold file_reader, mbind, M_bind.
  pose proof (read_data_trace filename kwds) as Ht.
  destruct (_read_data D filename kwds) as [t [dc|e]]; cbn in *; [|done].
  by rewrite app_nil_r.
Qed.

(** [file_reader] fails exactly where [_read_data] does. *)
Lemma file_reader_result filename kwds :
  (file_reader D filename kwds).2 =
    match (_read_data D filename kwds).2 with
    | Return dc =>
        Return [ {| data := if truthy (default (VBool false) (kwds !! "lazy"))
                            then Delayed filename ∅ (shape dc) (arr_dtype dc)
                            else Eager dc;
                    original_filename := (OsPath.split filename).2;
                    signal_type := "";
                    record_by := "image" |} ]
    | Raise e => Raise e
    end.
Proof.
  unfold file_reader, mbind, M_bind.
  by destruct (_read_data D filename kwds) as [t [dc|e]].
Qed.

Lemma channels_1_2_equal_3d dc h w c :
  shape dc = [h; w; c] → 3 ≤ c → wf_ndarray dc →
  ∃ b, channels_1_2_equal dc = Return b
       ∧ (b = true ↔ ∀ i j, i < h → j < w → at3 dc i j 1 = at3 dc i j 2).
Proof.
  intros Hs Hc Hwf. unfold channels_1_2_equal.
  rewrite (index_axis2_3d dc h w c 1), (index_axis2_3d dc h w c 2) by (done || lia).
  unfold mbind, result_bind, mret, result_ret.
  eexists. split; [done|].
  rewrite eq_all_maps.
  rewrite (pixel_index h w (λ m, nth (m * c + 1) (buffer dc) 0%Z
                                 = nth (m * c + 2) (buffer dc) 0%Z)).
  unfold at3. by rewrite Hs.
Qed.

Lemma collapse_gray dc h w c :
  shape dc = [h; w; c] → 3 ≤ c → wf_ndarray dc →
  (∀ i j, i < h → j < w → at3 dc i j 1 = at3 dc i j 2) →
  grayscale_collapse D dc = index_axis2 0 dc.
Proof.
  intros Hs Hc Hwf Heq.
  destruct (channels_1_2_equal_3d dc h w c Hs Hc Hwf) as (b & Hb & Hiff).
  apply Hiff in Heq as ->.
  unfold grayscale_collapse. rewrite Hs.
  rewrite decide_True by (cbn; lia).
  by rewrite Hb.
Qed.

Lemma collapse_colour dc h w c :
  shape dc = [h; w; c] → 3 ≤ c → wf_ndarray dc →
  ¬ (∀ i j, i < h → j < w → at3 dc i j 1 = at3 dc i j 2) →
  grayscale_collapse D dc = regular_array2rgbx D dc.
Proof.
  intros Hs Hc Hwf Hne.
  destruct (channels_1_2_equal_3d dc h w c Hs Hc Hwf) as (b & Hb & Hiff).
  destruct b; [by destruct Hne; apply Hiff|].
  unfold grayscale_collapse. rewrite Hs.
  rewrite decide_True by (cbn; lia).
  by rewrite Hb.
Qed.

Lemma collapse_too_few_channels dc h w c :
  shape dc = [h; w; c] → c < 3 →
  grayscale_collapse D dc = Raise (IndexError (if decide (c < 2) then 1 else 2) 2 c).
Proof.
  intros Hs Hc. unfold grayscale_collapse, channels_1_2_equal. rewrite Hs.
  rewrite decide_True by (cbn; lia).
  destruct (decide (c < 2)).
  - rewrite (index_axis2_out_of_bounds dc h w c 1 []); [reflexivity|done|lia].
  - unfold index_axis2. rewrite Hs.
    rewrite (decide_True (P := 1 < c)) by lia.
    rewrite (decide_False (P := 2 < c)) by lia. reflexivity.
Qed.

End WithDelegates.

End ReaderFacts.
Import ReaderFacts.

(** ** Messages that list the supported file types *)

Module MessageFacts.





End MessageFacts.
Import MessageFacts.

(** ** The canvas of a rendered write *)

Module CanvasFacts.

(** The output size: the sizes of the chosen axes when it is not given, one
    number for both dimensions, or the sequence as it is. *)
Lemma output_size_resolution (axes : list Axis) (n : number) (l : list number) :
  resolve_output_size SizeNone axes = map (λ axis, NInt (axis_size axis)) axes
  ∧ resolve_output_size (SizeNumber n) axes = [n; n]
  ∧ resolve_output_size (SizeSeq l) axes = l.
Proof. done. Qed.

(** The figure is built with the output size divided by 100 and the density
    100, and saved at the density 100. *)
Lemma rendered_trace_canvas (filename : string) (data : ndarray) (sizes : list number)
    (kwds : kwargs) :
  rendered_trace filename data sizes None kwds
  = [NewFigure (map (λ size, truediv size 100) sizes) 100;
     AddAxes [0; 0; 1; 1]%Z; AxisOff; Imshow data "gray";
     Savefig filename 100 kwds].
Proof. done. Qed.

(** A rendered write without scale bar that runs to its end. *)
Lemma file_writer_plain_run (D : Delegates) (filename : string) (signal : Signal)
    (scalebar : bool) (scalebar_kwds : option kwargs) (output_size : size_arg)
    (kwds : kwargs) (axes : list Axis) :
  effective_scalebar D scalebar = false →
  truthy_size output_size = true →
  select_axes signal = Return axes →
  extension filename ∈ supported_filetypes D →
  all_succeed D →
  file_writer D filename signal scalebar scalebar_kwds output_size kwds
  = (import_trace D scalebar
     ++ rendered_trace filename (plain_data D signal)
          (resolve_output_size output_size axes) None kwds,
     Return tt).
Proof.
  intros Hsb Ht Hsel Hin Hok.
  rewrite (file_writer_on_axes D filename signal scalebar scalebar_kwds output_size kwds
             axes); [|apply rendered_iff; by right|done].
  rewrite Hsb. by rewrite rendered_write_plain.
Qed.

(** In binary64 the side of the figure times the density gives back the
    requested 512 pixels, and falls short of a requested 29: what the saved
    image measures then is up to the rounding of the rasterizer. *)
Lemma canvas_extent_512 :
  PrimFloat.mul (truediv (NInt 512) dpi) (float_of_int dpi) = 512%float.
Proof. reflexivity. Qed.

Lemma canvas_extent_29 :
  PrimFloat.ltb (PrimFloat.mul (truediv (NInt 29) dpi) (float_of_int dpi)) 29%float = true.
Proof. reflexivity. Qed.

End CanvasFacts.

(** ** The scale bar *)

Module ScaleBarFacts.

Section WithDelegates.
Context (D : Delegates).



End WithDelegates.

End ScaleBarFacts.
Import ScaleBarFacts.

(** * The claims *)

(** ** Reader *)

(** C1, as amended.  For every decoded 3-D array [dc] of shape [(h, w, c)]
    with at least three channels: the reader calls the codec once and makes
    no other delegate call; if every value of channel 1 equals the
    corresponding value of channel 2, it returns the 2-D array of shape
    [(h, w)] that keeps channel 0; otherwise it returns what the host's packed
    RGB(A) encoder returns for [dc] (its array, or its error). *)
Theorem read_data_grayscale_collapse
    (D : Delegates) (filename : string) (kwds : kwargs) (dc : ndarray) (h w c : nat) :
  imread D filename ∅ = Return dc →
  shape dc = [h; w; c] →
  3 ≤ c →
  wf_ndarray dc →
  (_read_data D filename kwds).1 = [Imread filename ∅]
  ∧ ((∀ i j, i < h → j < w → at3 dc i j 1 = at3 dc i j 2) →
     ∃ g, (_read_data D filename kwds).2 = Return g
          ∧ arr_dtype g = arr_dtype dc
          ∧ shape g = [h; w]
          ∧ wf_ndarray g
          ∧ ∀ i j, i < h → j < w → at2 g i j = at3 dc i j 0)
  ∧ ((∃ i j, i < h ∧ j < w ∧ at3 dc i j 1 ≠ at3 dc i j 2) →
     (_read_data D filename kwds).2 = regular_array2rgbx D dc).
Proof.
  intros Hread Hs Hc Hwf.
  rewrite (read_data_decoded D filename kwds dc Hread). cbn [fst snd].
  split; [done|]. split.
  - intros Heq.
    rewrite (collapse_gray D dc h w c) by done.
    rewrite (index_axis2_3d dc h w c 0) by (done || lia).
    eexists. split; [done|]. cbn [arr_dtype shape].
    repeat split.
    + unfold wf_ndarray. cbn. rewrite length_map, length_seq. lia.
    + intros i j Hi Hj. unfold at2, at3. rewrite Hs. cbn [shape buffer].
      rewrite (nth_lookup (map _ _)), list_lookup_fmap, lookup_seq_lt by nia.
      done.
  - intros (i & j & Hi & Hj & Hne).
    apply (collapse_colour D dc h w c); [done..|].
    intros Heq. apply Hne. by apply Heq.
Qed.

Lemma read_data_grayscale_collapse_witness :
  (∃ g, (_read_data Reference.delegates "gray.png" ∅).2 = Return g
        ∧ arr_dtype g = uint8
        ∧ shape g = [2; 2]
        ∧ wf_ndarray g
        ∧ ∀ i j, i < 2 → j < 2 → at2 g i j = at3 Reference.gray_rgb i j 0)
  ∧ (_read_data Reference.delegates "colour.png" ∅).2
    = regular_array2rgbx Reference.delegates Reference.colour_rgb.
Proof.
  split.
  - apply (read_data_grayscale_collapse
             Reference.delegates "gray.png" ∅ Reference.gray_rgb 2 2 3);
      [reflexivity | reflexivity | lia | reflexivity |].
    intros i j Hi Hj.
    destruct i as [|[|i]]; [| |lia]; (destruct j as [|[|j]]; [reflexivity|reflexivity|lia]).
  - apply (read_data_grayscale_collapse
             Reference.delegates "colour.png" ∅ Reference.colour_rgb 1 2 3);
      [reflexivity | reflexivity | lia | reflexivity |].
    exists 0, 1. repeat split; [lia | lia | discriminate].
Defined.

(** C1, as stated, fails: a decoded gray+alpha image has three dimensions
    and two channels, and the reader raises on it instead of returning the
    channel-0 slice or a packed array. *)
Lemma read_data_gray_alpha_raises :
  imread Reference.delegates "gray_alpha.png" ∅ = Return Reference.gray_alpha
  ∧ 2 < ndim Reference.gray_alpha
  ∧ _read_data Reference.delegates "gray_alpha.png" ∅
    = ([Imread "gray_alpha.png" ∅], Raise (IndexError 2 2 2))
  ∧ ∀ g, (_read_data Reference.delegates "gray_alpha.png" ∅).2 ≠ Return g.
Proof.
  repeat split; [cbn; lia | discriminate].
Qed.

(** C5: the code does not do what the claim (and the docstring of
    [file_reader]) says.  Called with the options [pilmode='L'] and
    [as_grey=True], the reader calls the codec with no option at all. *)
Theorem file_reader_options_not_forwarded :
  (file_reader Reference.delegates "gray.png"
     {[ "pilmode" := VStr "L"; "as_grey" := VBool true ]}).1
  = [Imread "gray.png" ∅].
Proof. apply file_reader_trace. Qed.

(** C10.  For a decoded 3-D array of shape [(h, w, c)]: with fewer than three
    channels [file_reader] raises the out-of-bounds error of the channel
    indexing (index 1 or 2 on axis 2 of size [c]); it returns a result only if
    [c] is at least 3; and with at least three channels the collapse step
    yields the 2-D channel-0 slice or hands the array to the packed RGB(A)
    encoder. *)
Theorem file_reader_channel_precondition
    (D : Delegates) (filename : string) (kwds : kwargs) (dc : ndarray) (h w c : nat) :
  imread D filename ∅ = Return dc →
  shape dc = [h; w; c] →
  (c < 3 → ∃ k, (file_reader D filename kwds).2 = Raise (IndexError k 2 c)
                ∧ c ≤ k ≤ 2)
  ∧ (∀ r, (file_reader D filename kwds).2 = Return r → 3 ≤ c)
  ∧ (3 ≤ c → wf_ndarray dc →
     (∃ g, (_read_data D filename kwds).2 = Return g ∧ shape g = [h; w])
     ∨ (_read_data D filename kwds).2 = regular_array2rgbx D dc).
Proof.
  intros Hread Hs.
  rewrite file_reader_result.
  rewrite (read_data_decoded D filename kwds dc Hread). cbn [fst snd].
  split; [|split].
  - intros Hc. rewrite (collapse_too_few_channels D dc h w c) by done.
    eexists. split; [done|]. destruct (decide (c < 2)); lia.
  - intros r Hr. destruct (decide (3 ≤ c)) as [|Hn]; [done|].
    rewrite (collapse_too_few_channels D dc h w c) in Hr by (done || lia).
    discriminate.
  - intros Hc Hwf.
    destruct (channels_1_2_equal_3d dc h w c Hs Hc Hwf) as ([|] & Hb & Hiff).
    + left. rewrite (collapse_gray D dc h w c) by (done || by apply Hiff).
      rewrite (index_axis2_3d dc h w c 0) by (done || lia).
      eexists. by split.
    + right. apply (collapse_colour D dc h w c); [done..|].
      intros Heq. by apply Hiff in Heq.
Qed.

Lemma file_reader_channel_precondition_witness :
  (∃ k, (file_reader Reference.delegates "gray_alpha.png" ∅).2 = Raise (IndexError k 2 2)
        ∧ 2 ≤ k ≤ 2)
  ∧ ((∃ g, (_read_data Reference.delegates "gray.png" ∅).2 = Return g ∧ shape g = [2; 2])
     ∨ (_read_data Reference.delegates "gray.png" ∅).2
       = regular_array2rgbx Reference.delegates Reference.gray_rgb).
Proof.
  split.
  - apply (file_reader_channel_precondition
             Reference.delegates "gray_alpha.png" ∅ Reference.gray_alpha 1 1 2);
      [reflexivity | reflexivity | lia].
  - apply (file_reader_channel_precondition
             Reference.delegates "gray.png" ∅ Reference.gray_rgb 2 2 3);
      [reflexivity | reflexivity | lia | reflexivity].
Defined.

(** ** Writer *)

(** C2.  In rendered mode (a scale bar is requested and the overlay library
    is there, or [output_size] is set to a true value), [file_writer] runs
    the rendered write on the two signal axes if there are exactly two; else
    on the two navigation axes if there are exactly two; else it raises
    [ValueError "Data not compatible with saving scale bar."]. *)
Theorem file_writer_axis_pair_selection
    (D : Delegates) (filename : string) (signal : Signal) (scalebar : bool)
    (scalebar_kwds : option kwargs) (output_size : size_arg) (kwds : kwargs) :
  (scalebar = true ∧ scalebar_importable D = true) ∨ truthy_size output_size = true →
  (length (signal_axes (axes_manager signal)) = 2 →
   file_writer D filename signal scalebar scalebar_kwds output_size kwds
   = write_rendered_on D filename signal (signal_axes (axes_manager signal))
       scalebar scalebar_kwds output_size kwds)
  ∧ (length (signal_axes (axes_manager signal)) ≠ 2 →
     length (navigation_axes (axes_manager signal)) = 2 →
     file_writer D filename signal scalebar scalebar_kwds output_size kwds
     = write_rendered_on D filename signal (navigation_axes (axes_manager signal))
         scalebar scalebar_kwds output_size kwds)
  ∧ (length (signal_axes (axes_manager signal)) ≠ 2 →
     length (navigation_axes (axes_manager signal)) ≠ 2 →
     file_writer D filename signal scalebar scalebar_kwds output_size kwds
     = (import_trace D scalebar,
        Raise (ValueError "Data not compatible with saving scale bar."))).
Proof.
  intros Hr. apply rendered_iff in Hr.
  split; [|split].
  - intros Hs. apply file_writer_write_rendered_on; [done|].
    unfold select_axes. by rewrite bool_decide_eq_true_2.
  - intros Hs Hn. apply file_writer_write_rendered_on; [done|].
    unfold select_axes.
    by rewrite bool_decide_eq_false_2, bool_decide_eq_true_2.
  - intros Hs Hn. apply file_writer_no_axes; [done|].
    unfold select_axes. by rewrite !bool_decide_eq_false_2.
Qed.

Lemma file_writer_axis_pair_selection_witness :
  file_writer Reference.delegates "out.png"
    (Reference.signal2d Reference.nm Reference.nm) true None SizeNone ∅
  = write_rendered_on Reference.delegates "out.png"
      (Reference.signal2d Reference.nm Reference.nm)
      (signal_axes (axes_manager (Reference.signal2d Reference.nm Reference.nm)))
      true None SizeNone ∅
  ∧ file_writer Reference.delegates "out.png"
      (Reference.map2d Reference.nm Reference.nm) false None (SizeNumber (NInt 512)) ∅
    = write_rendered_on Reference.delegates "out.png"
        (Reference.map2d Reference.nm Reference.nm)
        (navigation_axes (axes_manager (Reference.map2d Reference.nm Reference.nm)))
        false None (SizeNumber (NInt 512)) ∅
  ∧ file_writer Reference.delegates "out.png"
      (Reference.line_scan Reference.nm Reference.nm) true None SizeNone ∅
    = (import_trace Reference.delegates true,
       Raise (ValueError "Data not compatible with saving scale bar.")).
Proof.
  split; [|split].
  - refine (proj1 (file_writer_axis_pair_selection Reference.delegates "out.png"
                     (Reference.signal2d Reference.nm Reference.nm) true None SizeNone ∅
                     (or_introl (conj eq_refl eq_refl))) eq_refl).
  - refine (proj1 (proj2 (file_writer_axis_pair_selection Reference.delegates "out.png"
                     (Reference.map2d Reference.nm Reference.nm) false None
                     (SizeNumber (NInt 512)) ∅ (or_intror eq_refl))) _ eq_refl).
    discriminate.
  - refine (proj2 (proj2 (file_writer_axis_pair_selection Reference.delegates "out.png"
                     (Reference.line_scan Reference.nm Reference.nm) true None SizeNone ∅
                     (or_introl (conj eq_refl eq_refl)))) _ _); discriminate.
Defined.





(** C8.  With [scalebar] false and [output_size] [None], [file_writer] makes
    one delegate call: the codec's write, with the file name, the signal's
    data (unpacked when it is in the packed RGB(A) representation) and the
    keyword options as given; its outcome is the outcome of the writer.  No
    figure is built. *)
Theorem direct_write_to_codec
    (D : Delegates) (filename : string) (signal : Signal)
    (scalebar_kwds : option kwargs) (kwds : kwargs) :
  file_writer D filename signal false scalebar_kwds SizeNone kwds
  = perform D (Imwrite filename
                 (if is_rgbx D (signal_data signal)
                  then rgbx2regular_array D (signal_data signal)
                  else signal_data signal)
                 kwds)
  ∧ (file_writer D filename signal false scalebar_kwds SizeNone kwds).1
    = [Imwrite filename
         (if is_rgbx D (signal_data signal)
          then rgbx2regular_array D (signal_data signal)
          else signal_data signal)
         kwds]
  ∧ ∀ fs d, NewFigure fs d ∉ (file_writer D filename signal false scalebar_kwds SizeNone kwds).1.
Proof.
  rewrite (WriterFacts.file_writer_direct D) by done.
  unfold import_scalebar, import_trace, plain_data. cbn [andb].
  change (([], Return (effective_scalebar D false)) : M bool)
    with (mret (effective_scalebar D false) : M bool).
  rewrite M_ret_bind.
  split; [done|]. split; [done|].
  intros fs d Hin. cbn in Hin. apply list_elem_of_singleton in Hin. discriminate.
Qed.



(** C6: the code does not do what the claim (and the docstring of
    [file_writer], "the output size of the image in pixel") says.  The output
    size is resolved and the canvas built and exported as the claim describes,
    but the size in inches is the float [N / 100], and the rasterizer renders
    [int(size * 100)] pixels: for [output_size = 29] the figure measures
    0.29 inch a side and the saved image 28 by 28 pixels, not 29 by 29.  (For
    the tested size 512 it is 512 by 512.) *)
Theorem output_size_29_is_saved_as_28 :
  file_writer Reference.delegates "out.png"
    (Reference.signal2d Reference.nm Reference.nm) false None (SizeNumber (NInt 29)) ∅
  = ([NewFigure (figsize [NInt 29; NInt 29]) 100;
      AddAxes [0; 0; 1; 1]%Z; AxisOff; Imshow Reference.image_4x4 "gray";
      Savefig "out.png" 100 ∅],
     Return tt)
  ∧ image_shape (figsize [NInt 29; NInt 29]) 100 = Some [28; 28]%Z
  ∧ image_shape (figsize [NInt 512; NInt 512]) 100 = Some [512; 512]%Z.
Proof.
  split; [by vm_compute|]. split; by vm_compute.
Qed.




(** * Further properties of the reader *)

Module GatherFacts.

Ltac same_index :=
  match goal with
  | |- default _ (_ !! ?i) = default _ (_ !! ?j) =>
      replace i with j by lia; reflexivity
  | |- nth ?i _ _ = nth ?j _ _ =>
      replace i with j by lia; reflexivity
  end.

Lemma gather_length (n stride off width : nat) (buf : list Z) :
  off + width ≤ stride → length buf = n * stride →
  length (gather n stride off width buf) = n * width.
Proof.
  intros Hw. revert buf. induction n as [|n IH]; intros buf Hlen; [done|].
  cbn [gather]. rewrite length_app, length_take, length_drop.
  rewrite IH by (rewrite length_drop; lia). lia.
Qed.

Lemma gather_nth (n stride off width m r : nat) (buf : list Z) :
  off + width ≤ stride → length buf = n * stride → m < n → r < width →
  nth (m * width + r) (gather n stride off width buf) 0%Z
  = nth (m * stride + off + r) buf 0%Z.
Proof.
  intros Hw. revert buf m. induction n as [|n IH]; intros buf m Hlen Hm Hr; [lia|].
  cbn [gather].
  assert (Hfirst : length (take width (drop off buf)) = width)
    by (rewrite length_take, length_drop; lia).
  rewrite nth_lookup. destruct m as [|m].
  - rewrite lookup_app_l by lia.
    rewrite lookup_take_lt by lia. rewrite lookup_drop.
    rewrite nth_lookup. same_index.
  - rewrite lookup_app_r by lia.
    replace (S m * width + r - length (take width (drop off buf)))
      with (m * width + r) by lia.
    rewrite <- nth_lookup.
    rewrite IH by (rewrite ?length_drop; lia).
    rewrite !nth_lookup, lookup_drop. same_index.
Qed.

Lemma eq_all_nth (a b : ndarray) (n : nat) :
  length (buffer a) = n → length (buffer b) = n →
  eq_all a b = true ↔ ∀ i, i < n → nth i (buffer a) 0%Z = nth i (buffer b) 0%Z.
Proof.
  intros Ha Hb. unfold eq_all. rewrite forallb_forall. split.
  - intros H i Hi.
    destruct (lookup_lt_is_Some_2 (buffer a) i) as [x Hx]; [lia|].
    destruct (lookup_lt_is_Some_2 (buffer b) i) as [y Hy]; [lia|].
    rewrite !nth_lookup, Hx, Hy. cbn.
    apply Z.eqb_eq. apply (H (x, y)).
    apply list_elem_of_In, list_elem_of_lookup. exists i.
    apply lookup_zip_with_Some. by exists x, y.
  - intros H [x y] Hin.
    apply list_elem_of_In, list_elem_of_lookup in Hin as [i Hi].
    apply lookup_zip_with_Some in Hi as (x' & y' & Heq & Hx & Hy).
    injection Heq as -> ->.
    pose proof (lookup_lt_Some _ _ _ Hx) as Hlt. rewrite Ha in Hlt.
    specialize (H i Hlt). rewrite !nth_lookup, Hx, Hy in H. cbn in H.
    apply Z.eqb_eq. by cbn.
Qed.

(** [dc[:, :, k]] in any number of dimensions. *)
Lemma index_axis2_sliced (dc : ndarray) (d0 d1 d2 k : nat) (rest : list nat) :
  shape dc = d0 :: d1 :: d2 :: rest → k < d2 → wf_ndarray dc →
  ∃ g, index_axis2 k dc = Return g
       ∧ arr_dtype g = arr_dtype dc
       ∧ shape g = d0 :: d1 :: rest
       ∧ length (buffer g) = d0 * d1 * numel rest
       ∧ ∀ m r, m < d0 * d1 → r < numel rest →
                nth (m * numel rest + r) (buffer g) 0%Z = entry_axis2 dc m k r.
Proof.
  intros Hs Hk Hwf. unfold index_axis2. rewrite Hs.
  rewrite decide_True by done.
  assert (Hlen : length (buffer dc) = d0 * d1 * (d2 * numel rest)).
  { unfold wf_ndarray in Hwf. rewrite Hwf, Hs. unfold numel. cbn [foldr]. lia. }
  eexists. split; [done|]. cbn [arr_dtype shape buffer].
  split; [done|]. split; [done|]. split.
  - apply gather_length; [nia|done].
  - intros m r Hm Hr. unfold entry_axis2. rewrite Hs.
    rewrite gather_nth by (done || nia).
    same_index.
Qed.

End GatherFacts.
Import GatherFacts.

Module ReaderMore.

Section WithDelegates.
Context (D : Delegates).

Lemma file_reader_record filename kwds :
  (file_reader D filename kwds).2 =
    match (_read_data D filename kwds).2 with
    | Return dc =>
        Return [read_record filename
                  (if lazy_requested kwds
                   then Delayed filename ∅ (shape dc) (arr_dtype dc)
                   else Eager dc)]
    | Raise e => Raise e
    end.
Proof. apply file_reader_result. Qed.

Lemma file_reader_pair filename kwds :
  file_reader D filename kwds
  = ([Imread filename ∅], (file_reader D filename kwds).2).
Proof.
  rewrite <- (file_reader_trace D filename kwds).
  by destruct (file_reader D filename kwds).
Qed.

Lemma channels_1_2_equal_sliced dc d0 d1 d2 rest :
  shape dc = d0 :: d1 :: d2 :: rest → 3 ≤ d2 → wf_ndarray dc →
  ∃ b, channels_1_2_equal dc = Return b
       ∧ (b = true ↔ ∀ m r, m < d0 * d1 → r < numel rest →
                            entry_axis2 dc m 1 r = entry_axis2 dc m 2 r).
Proof.
  intros Hs Hc Hwf. unfold channels_1_2_equal.
  destruct (index_axis2_sliced dc d0 d1 d2 1 rest) as (g1 & -> & _ & _ & Hl1 & Hn1);
    [done | lia | done |].
  destruct (index_axis2_sliced dc d0 d1 d2 2 rest) as (g2 & -> & _ & _ & Hl2 & Hn2);
    [done | lia | done |].
  unfold mbind, result_bind, mret, result_ret.
  eexists. split; [done|].
  rewrite (eq_all_nth g1 g2 (d0 * d1 * numel rest)) by done.
  rewrite (pixel_index (d0 * d1) (numel rest)
             (λ i, nth i (buffer g1) 0%Z = nth i (buffer g2) 0%Z)).
  split.
  - intros H m r Hm Hr. rewrite <- Hn1, <- Hn2 by done. by apply H.
  - intros H m r Hm Hr. rewrite Hn1, Hn2 by done. by apply H.
Qed.

Lemma collapse_single_test dc :
  grayscale_collapse D dc =
    if decide (2 < length (shape dc)) then
      equal ← channels_1_2_equal dc;
      if equal : bool then index_axis2 0 dc else regular_array2rgbx D dc
    else Return dc.
Proof.
  unfold grayscale_collapse.
  destruct (decide (2 < length (shape dc))); [|done].
  by destruct (channels_1_2_equal dc) as [[|]|e].
Qed.

End WithDelegates.

End ReaderMore.
Import ReaderMore.

(** X1.  Whatever the options, [file_reader] makes one delegate call, the
    decode of the file with no option; and two calls on the same file whose
    options agree on the truth value of [lazy] are the same in every respect:
    no other option has any effect. *)
Theorem file_reader_options_ignored
    (D : Delegates) (filename : string) (kwds : kwargs) :
  (file_reader D filename kwds).1 = [Imread filename ∅]
  ∧ ∀ kwds', lazy_requested kwds = lazy_requested kwds' →
             file_reader D filename kwds = file_reader D filename kwds'.
Proof.
  split; [apply file_reader_trace|].
  intros kwds' Hlazy.
  rewrite (file_reader_pair D filename kwds), (file_reader_pair D filename kwds').
  f_equal. rewrite !file_reader_record.
  change (_read_data D filename kwds') with (_read_data D filename kwds).
  by rewrite Hlazy.
Qed.

Lemma file_reader_options_ignored_witness :
  file_reader Reference.delegates "colour.png" {[ "pilmode" := VStr "L" ]}
  = file_reader Reference.delegates "colour.png"
      {[ "format" := VStr "PNG-PIL"; "lazy" := VInt 0 ]}.
Proof.
  refine (proj2 (file_reader_options_ignored Reference.delegates "colour.png"
                   {[ "pilmode" := VStr "L" ]})
                {[ "format" := VStr "PNG-PIL"; "lazy" := VInt 0 ]} _).
  vm_compute. reflexivity.
Defined.

(** X2.  An error of the codec is the error of the reader, unchanged, in
    eager and in lazy mode alike; nothing else is called. *)
Theorem file_reader_codec_error
    (D : Delegates) (filename : string) (kwds : kwargs) (e : exn) :
  imread D filename ∅ = Raise e →
  file_reader D filename kwds = ([Imread filename ∅], Raise e)
  ∧ _read_data D filename kwds = ([Imread filename ∅], Raise e).
Proof.
  intros Hread.
  assert (Hrd : _read_data D filename kwds = ([Imread filename ∅], Raise e)).
  { rewrite read_data_collapse. unfold call_imread, mbind, M_bind. cbn.
    by rewrite Hread. }
  split; [|done].
  rewrite file_reader_pair, file_reader_record. by rewrite Hrd.
Qed.

Lemma file_reader_codec_error_witness :
  file_reader Reference.delegates "missing.png" {[ "lazy" := VBool true ]}
  = ([Imread "missing.png" ∅],
     Raise (DelegateError "FileNotFoundError" "missing.png")).
Proof.
  refine (proj1 (file_reader_codec_error Reference.delegates "missing.png"
                   {[ "lazy" := VBool true ]}
                   (DelegateError "FileNotFoundError" "missing.png") eq_refl)).
Defined.

(** X3.  A decoded array of at most two dimensions is returned as decoded:
    the collapse step and the packed encoder are not applied to it. *)
Theorem file_reader_low_dimensional
    (D : Delegates) (filename : string) (kwds : kwargs) (dc : ndarray) :
  imread D filename ∅ = Return dc →
  length (shape dc) ≤ 2 →
  _read_data D filename kwds = ([Imread filename ∅], Return dc)
  ∧ (lazy_requested kwds = false →
     file_reader D filename kwds
     = ([Imread filename ∅], Return [read_record filename (Eager dc)])).
Proof.
  intros Hread Hdim.
  assert (Hrd : _read_data D filename kwds = ([Imread filename ∅], Return dc)).
  { rewrite (read_data_decoded D filename kwds dc Hread).
    unfold grayscale_collapse. by rewrite decide_False by lia. }
  split; [done|]. intros Hlazy.
  rewrite file_reader_pair, file_reader_record. by rewrite Hrd, Hlazy.
Qed.

Lemma file_reader_low_dimensional_witness :
  file_reader (Variants.decoding Reference.gray_2d) "scan.png" ∅
  = ([Imread "scan.png" ∅], Return [read_record "scan.png" (Eager Reference.gray_2d)]).
Proof.
  refine (proj2 (file_reader_low_dimensional (Variants.decoding Reference.gray_2d)
                   "scan.png" ∅ Reference.gray_2d eq_refl _) eq_refl).
  cbn. lia.
Defined.

(** X4.  A lazy read decodes the file at once all the same.  For an image
    stored as RGB(A) whose channels 1 and 2 agree, the deferred array
    announces the collapsed shape [(h, w)] and the element type of the decoded
    array, and re-reads the file later with no option; for a decoded array
    with fewer than three channels the lazy read fails at the call, with the
    indexing error of the probe. *)
Theorem file_reader_lazy_probe
    (D : Delegates) (filename : string) (kwds : kwargs) (dc : ndarray) (h w c : nat) :
  imread D filename ∅ = Return dc →
  shape dc = [h; w; c] →
  wf_ndarray dc →
  lazy_requested kwds = true →
  (3 ≤ c →
   (∀ i j, i < h → j < w → at3 dc i j 1 = at3 dc i j 2) →
   file_reader D filename kwds
   = ([Imread filename ∅],
      Return [read_record filename (Delayed filename ∅ [h; w] (arr_dtype dc))]))
  ∧ (c < 3 →
     file_reader D filename kwds
     = ([Imread filename ∅], Raise (IndexError (if decide (c < 2) then 1 else 2) 2 c))).
Proof.
  intros Hread Hs Hwf Hlazy.
  rewrite file_reader_pair, file_reader_record.
  rewrite (read_data_decoded D filename kwds dc Hread). cbn [snd].
  split.
  - intros Hc Heq.
    rewrite (collapse_gray D dc h w c) by done.
    rewrite (index_axis2_3d dc h w c 0) by (done || lia).
    by rewrite Hlazy.
  - intros Hc. by rewrite (collapse_too_few_channels D dc h w c) by done.
Qed.

Lemma file_reader_lazy_probe_witness :
  file_reader Reference.delegates "gray.png" {[ "lazy" := VBool true ]}
  = ([Imread "gray.png" ∅],
     Return [read_record "gray.png" (Delayed "gray.png" ∅ [2; 2] uint8)])
  ∧ file_reader Reference.delegates "gray_alpha.png" {[ "lazy" := VBool true ]}
    = ([Imread "gray_alpha.png" ∅], Raise (IndexError 2 2 2)).
Proof.
  split.
  - refine (proj1 (file_reader_lazy_probe Reference.delegates "gray.png"
                     {[ "lazy" := VBool true ]} Reference.gray_rgb 2 2 3
                     eq_refl eq_refl eq_refl eq_refl) _ _); [lia|].
    intros i j Hi Hj.
    destruct i as [|[|i]]; [| |lia]; (destruct j as [|[|j]]; [reflexivity|reflexivity|lia]).
  - refine (proj2 (file_reader_lazy_probe Reference.delegates "gray_alpha.png"
                     {[ "lazy" := VBool true ]} Reference.gray_alpha 1 1 2
                     eq_refl eq_refl eq_refl eq_refl) _). lia.
Defined.

(** X5.  The channel test is written twice in the condition of
    [_read_data]; the second evaluation never changes what the reader does:
    the reader is the same function as the one with the test written once. *)
Theorem read_data_second_test_redundant
    (D : Delegates) (filename : string) (kwds : kwargs) :
  _read_data D filename kwds = read_data_single_test D filename.
Proof.
  rewrite read_data_collapse. unfold read_data_single_test.
  apply M_bind_ext. intros dc. rewrite collapse_single_test.
  destruct (decide (2 < length (shape dc))); [|done].
  by destruct (channels_1_2_equal dc) as [[|]|e].
Qed.

(** X6.  The collapse in any number of dimensions.  For a decoded array of
    shape [(d0, d1, d2, ...)] with [d2] at least 3: if the sub-arrays at
    indices 1 and 2 of axis 2 agree in every entry, the reader returns the
    sub-array at index 0, of shape [(d0, d1, ...)] (one dimension less, so not
    2-D for an array of more than three dimensions), with as many entries as
    its shape announces; otherwise it returns what the packed RGB(A) encoder
    returns. *)
Theorem read_data_any_dimension
    (D : Delegates) (filename : string) (kwds : kwargs) (dc : ndarray)
    (d0 d1 d2 : nat) (rest : list nat) :
  imread D filename ∅ = Return dc →
  shape dc = d0 :: d1 :: d2 :: rest →
  3 ≤ d2 →
  wf_ndarray dc →
  ((∀ m r, m < d0 * d1 → r < numel rest →
           entry_axis2 dc m 1 r = entry_axis2 dc m 2 r) →
   ∃ g, (_read_data D filename kwds).2 = Return g
        ∧ arr_dtype g = arr_dtype dc
        ∧ shape g = d0 :: d1 :: rest
        ∧ wf_ndarray g
        ∧ ∀ m r, m < d0 * d1 → r < numel rest →
                 entry_sliced g m r = entry_axis2 dc m 0 r)
  ∧ ((∃ m r, m < d0 * d1 ∧ r < numel rest
             ∧ entry_axis2 dc m 1 r ≠ entry_axis2 dc m 2 r) →
     (_read_data D filename kwds).2 = regular_array2rgbx D dc).
Proof.
  intros Hread Hs Hc Hwf.
  rewrite (read_data_decoded D filename kwds dc Hread). cbn [snd].
  rewrite collapse_single_test. rewrite Hs.
  rewrite decide_True by (cbn; lia).
  destruct (channels_1_2_equal_sliced dc d0 d1 d2 rest Hs Hc Hwf) as (b & -> & Hiff).
  unfold mbind, result_bind.
  split.
  - intros Heq. apply Hiff in Heq as ->.
    destruct (index_axis2_sliced dc d0 d1 d2 0 rest) as (g & -> & Hd & Hg & Hl & Hn);
      [done | lia | done |].
    exists g. split; [done|]. split; [done|]. split; [done|]. split.
    + unfold wf_ndarray. rewrite Hl, Hg. unfold numel. cbn [foldr]. lia.
    + intros m r Hm Hr. unfold entry_sliced. rewrite Hg. by apply Hn.
  - intros (m & r & Hm & Hr & Hne).
    destruct b; [|done].
    destruct Hne. by apply Hiff.
Qed.

Lemma read_data_any_dimension_witness :
  (∃ g, (_read_data (Variants.decoding Variants.stack_equal) "stack.tif" ∅).2 = Return g
        ∧ arr_dtype g = uint8
        ∧ shape g = [1; 2; 2]
        ∧ wf_ndarray g
        ∧ ∀ m r, m < 1 * 2 → r < numel [2] →
                 entry_sliced g m r = entry_axis2 Variants.stack_equal m 0 r)
  ∧ (_read_data (Variants.decoding Variants.stack_unequal) "stack.tif" ∅).2
    = regular_array2rgbx (Variants.decoding Variants.stack_unequal) Variants.stack_unequal.
Proof.
  split.
  - refine (proj1 (read_data_any_dimension (Variants.decoding Variants.stack_equal)
                     "stack.tif" ∅ Variants.stack_equal 1 2 3 [2]
                     eq_refl eq_refl _ eq_refl) _); [lia|].
    intros m r Hm Hr. cbn in Hm, Hr.
    destruct m as [|[|m]]; [| |lia]; (destruct r as [|[|r]]; [reflexivity|reflexivity|lia]).
  - refine (proj2 (read_data_any_dimension (Variants.decoding Variants.stack_unequal)
                     "stack.tif" ∅ Variants.stack_unequal 1 2 3 [2]
                     eq_refl eq_refl _ eq_refl) _); [lia|].
    exists 0, 1. split; [lia|]. split; [cbn; lia|]. discriminate.
Defined.

(** X7.  The errors of the reader.  When [file_reader] raises, the error is
    the codec's, or the out-of-bounds error of indexing channel 1 or 2 of an
    array of more than two dimensions whose axis 2 is shorter than 3, or the
    error of the packed RGB(A) encoder on such an array whose axis 2 has at
    least 3 entries; the reader raises nothing else. *)
Theorem file_reader_errors
    (D : Delegates) (filename : string) (kwds : kwargs) (x : exn) :
  (file_reader D filename kwds).2 = Raise x →
  imread D filename ∅ = Raise x
  ∨ ∃ dc, imread D filename ∅ = Return dc
          ∧ 2 < length (shape dc)
          ∧ ((∃ k d2, shape dc !! 2 = Some d2 ∧ d2 < 3 ∧ d2 ≤ k ≤ 2
                      ∧ 1 ≤ k ∧ x = IndexError k 2 d2)
             ∨ (∃ d2, shape dc !! 2 = Some d2 ∧ 3 ≤ d2
                      ∧ regular_array2rgbx D dc = Raise x)).
Proof.
  rewrite file_reader_record, read_data_collapse.
  unfold call_imread, mbind at 1, M_bind. cbn [fst snd].
  destruct (imread D filename ∅) as [dc|e] eqn:Hread; cbn [snd lift].
  2:{ intros [= ->]. by left. }
  intros Hx. right. exists dc. split; [done|].
  rewrite collapse_single_test in Hx.
  destruct (decide (2 < length (shape dc))) as [Hdim|]; [|done].
  split; [done|].
  destruct (shape dc) as [|d0 [|d1 [|d2 rest]]] eqn:Hs; cbn in Hdim; [lia..|].
  unfold channels_1_2_equal, index_axis2 in Hx. rewrite Hs in Hx.
  destruct (decide (1 < d2)) as [H1|H1]; cbn in Hx.
  - destruct (decide (2 < d2)) as [H2|H2]; cbn in Hx.
    + right. exists d2. split; [done|]. split; [lia|].
      destruct (forallb _ _).
      * rewrite decide_True in Hx by lia. done.
      * destruct (regular_array2rgbx D dc) as [g|e]; [done|]. by injection Hx as ->.
    + left. exists 2, d2. injection Hx as <-. repeat split; (done || lia).
  - left. exists 1, d2. injection Hx as <-. repeat split; (done || lia).
Qed.

Lemma file_reader_errors_witness :
  imread Reference.delegates "gray_alpha.png" ∅
  = Raise (IndexError 2 2 2)
  ∨ ∃ dc, imread Reference.delegates "gray_alpha.png" ∅ = Return dc
          ∧ 2 < length (shape dc)
          ∧ ((∃ k d2, shape dc !! 2 = Some d2 ∧ d2 < 3 ∧ d2 ≤ k ≤ 2
                      ∧ 1 ≤ k ∧ IndexError 2 2 2 = IndexError k 2 d2)
             ∨ (∃ d2, shape dc !! 2 = Some d2 ∧ 3 ≤ d2
                      ∧ regular_array2rgbx Reference.delegates dc
                        = Raise (IndexError 2 2 2))).
Proof.
  exact (file_reader_errors Reference.delegates "gray_alpha.png" ∅
           (IndexError 2 2 2) eq_refl).
Defined.

(** * Further properties of the writer *)

(** ** Running a plan *)

Module PlanFacts.

Section WithDelegates.
Context (D : Delegates).

Lemma run_steps_cons_pass s ss :
  step_error D s = None →
  run_steps D (s :: ss) = (step_events s ++ (run_steps D ss).1, (run_steps D ss).2).
Proof.
  intros Hs. cbn [run_steps].
  destruct s as [e|e|[[]|x]]; cbn in Hs; cbn [run_step step_events]; [| |done|done].
  - by rewrite perform_bind_ok.
  - done.
Qed.

Lemma run_steps_cons_fail s ss x :
  step_error D s = Some x →
  run_steps D (s :: ss) = (step_events s, Raise x).
Proof.
  intros Hs. cbn [run_steps].
  destruct s as [e|e|[[]|y]]; cbn in Hs; cbn [run_step step_events]; [|done|done|].
  - by rewrite (perform_bind_raise D e x).
  - by injection Hs as ->.
Qed.

Lemma run_steps_app ss1 ss2 :
  run_steps D (ss1 ++ ss2) = (run_steps D ss1;; run_steps D ss2).
Proof.
  induction ss1 as [|s ss1 IH]; cbn [app run_steps].
  - by rewrite M_ret_bind.
  - by rewrite IH, M_bind_assoc.
Qed.

(** A run records a prefix of the calls of the plan. *)
Lemma run_steps_prefix ss : (run_steps D ss).1 `prefix_of` plan_events ss.
Proof.
  induction ss as [|s ss IH]; [done|].
  unfold plan_events. cbn [map concat].
  destruct (step_error D s) as [x|] eqn:Hs.
  - rewrite (run_steps_cons_fail s ss x Hs). cbn. by apply prefix_app_r.
  - rewrite (run_steps_cons_pass s ss Hs). cbn. by apply prefix_app.
Qed.

(** A run returns exactly when every step passes, and has then recorded
    every call of the plan. *)
Lemma run_steps_return ss :
  (run_steps D ss).2 = Return tt ↔ Forall (λ s, step_error D s = None) ss.
Proof.
  induction ss as [|s ss IH]; [done|].
  destruct (step_error D s) as [x|] eqn:Hs.
  - rewrite (run_steps_cons_fail s ss x Hs). cbn. split; [done|].
    intros H. apply Forall_cons in H as [H _]. congruence.
  - rewrite (run_steps_cons_pass s ss Hs). cbn. rewrite IH, Forall_cons.
    split; [by intros H | by intros [_ H]].
Qed.

Lemma run_steps_complete ss :
  Forall (λ s, step_error D s = None) ss →
  run_steps D ss = (plan_events ss, Return tt).
Proof.
  induction ss as [|s ss IH]; [done|].
  intros H. apply Forall_cons in H as [Hs H].
  rewrite (run_steps_cons_pass s ss Hs), (IH H). done.
Qed.

(** A run that raises stopped at a step of the plan whose error it raises;
    when that step is a delegate call, the call is the last one recorded. *)
Lemma run_steps_raise ss x :
  (run_steps D ss).2 = Raise x →
  ∃ s, s ∈ ss ∧ step_error D s = Some x
       ∧ ∀ e, s = Call e → last (run_steps D ss).1 = Some e.
Proof.
  induction ss as [|s ss IH]; [done|].
  destruct (step_error D s) as [y|] eqn:Hs.
  - rewrite (run_steps_cons_fail s ss y Hs). cbn. intros [= ->].
    exists s. split; [by left|]. split; [done|]. by intros e ->.
  - rewrite (run_steps_cons_pass s ss Hs). cbn. intros Hx.
    destruct (IH Hx) as (s' & Hin & Hs' & Hlast).
    exists s'. split; [by right|]. split; [done|].
    intros e He. specialize (Hlast e He).
    rewrite last_app, Hlast. done.
Qed.

Lemma run_steps_call e :
  run_steps D [Call e]
  = ([e], match outcome D e with
          | None => Return tt
          | Some x => Raise x
          end).
Proof.
  cbn [run_steps run_step]. unfold perform, mbind, M_bind. cbn.
  by destruct (outcome D e).
Qed.

(** A plan that ends in a call: the call is recorded only when everything
    before passed, only as the last call, and its outcome is the result. *)
Lemma run_steps_final ss e :
  e ∉ plan_events ss →
  let run := run_steps D (ss ++ [Call e]) in
  (e ∈ run.1 → Forall (λ s, step_error D s = None) ss ∧ last run.1 = Some e)
  ∧ (run.2 = Return tt ↔ e ∈ run.1 ∧ outcome D e = None).
Proof.
  intros Hnot. cbn zeta. rewrite run_steps_app.
  pose proof (run_steps_prefix ss) as Hpre.
  pose proof (run_steps_return ss) as Hret.
  destruct (run_steps D ss) as [t [[]|x]] eqn:Hrun; cbn [fst snd] in *.
  - assert (Hall : Forall (λ s, step_error D s = None) ss) by by apply Hret.
    rewrite run_steps_call. unfold mbind, M_bind. cbn [fst snd].
    split.
    + intros _. split; [done|]. by rewrite last_snoc.
    + split.
      * intros Hr. split; [apply elem_of_app; right; by apply list_elem_of_singleton|].
        by destruct (outcome D e).
      * intros [_ ->]. done.
  - unfold mbind, M_bind. cbn [fst snd].
    assert (Hnin : e ∉ t).
    { intros Hin. apply Hnot. destruct Hpre as [k ->]. apply elem_of_app. by left. }
    split; [done|]. split; [done|]. by intros [Hin _].
Qed.

End WithDelegates.

End PlanFacts.

(** ** The writer runs its plan *)

Module WriterPlanFacts.

Import PlanFacts.

Section WithDelegates.
Context (D : Delegates).

Lemma M_bind_ret_unit (m : M unit) : (m ≫= λ _, mret tt) = m.
Proof.
  unfold mbind, M_bind, mret, M_ret.
  destruct m as [t [[]|e]]; cbn; [|done]. by rewrite app_nil_r.
Qed.

Lemma format_gate_guard filename sb sizes :
  format_gate D filename sb sizes = lift (format_guard D filename sb sizes).
Proof.
  unfold format_gate, format_guard.
  case_bool_decide; [|done]. destruct sb; [done|]. by destruct (truthy_size _).
Qed.

Lemma calibration_check_guard sb axes :
  calibration_check sb axes = lift (calibration_guard sb axes).
Proof.
  unfold calibration_check, calibration_guard. destruct sb; [|done].
  destruct (getitem axes 0) as [a0|e]; [|done].
  destruct (getitem axes 1) as [a1|e]; [|done].
  rewrite !M_lift_return_bind.
  unfold mbind, result_bind. by destruct (mismatch a0 a1).
Qed.

Lemma rendered_write_plan filename data axes sb kw output_size kwds :
  rendered_write D filename data axes sb kw output_size kwds
  = run_steps D (rendered_checks D filename data axes sb kw output_size
                 ++ [Call (Savefig filename dpi kwds)]).
Proof.
  unfold rendered_write, rendered_checks.
  rewrite format_gate_guard, calibration_check_guard.
  cbn [app run_steps run_step].
  do 6 (apply M_bind_ext; intros _).
  destruct sb; cbn [app run_steps run_step];
    [|by rewrite M_ret_bind, M_bind_ret_unit].
  unfold draw_scalebar, scalebar_steps.
  destruct (getitem axes 0) as [axis|e]; [|done].
  rewrite M_lift_return_bind.
  destruct (check_reciprocal_length D _) as [r|e]; [|done].
  rewrite M_lift_return_bind. cbn [app run_steps run_step].
  by rewrite !M_bind_assoc, M_bind_ret_unit.
Qed.

(** [file_writer] is the run of its plan. *)
Lemma file_writer_plan filename signal scalebar scalebar_kwds output_size kwds :
  file_writer D filename signal scalebar scalebar_kwds output_size kwds
  = run_steps D (writer_plan D filename signal scalebar scalebar_kwds output_size kwds).
Proof.
  unfold writer_plan, writer_checks, final_call.
  assert (Himp : ∀ (k : bool → M unit) ss,
            (∀ b, b = effective_scalebar D scalebar → k b = run_steps D ss) →
            (import_scalebar D scalebar ≫= k)
            = run_steps D ((if scalebar && negb (scalebar_importable D)
                            then [Note import_warning] else []) ++ ss)).
  { intros k ss Hk. unfold import_scalebar, import_trace.
    unfold mbind at 1. unfold M_bind. cbn [fst snd].
    rewrite (Hk _ eq_refl).
    destruct (scalebar && negb (scalebar_importable D)); cbn [app run_steps run_step];
      [|by destruct (run_steps D ss)].
    by rewrite log_bind. }
  destruct (rendered D scalebar output_size) eqn:Hr.
  - rewrite (WriterFacts.file_writer_rendered D) by done.
    rewrite <- app_assoc. apply Himp. intros sb ->.
    destruct (select_axes signal) as [axes|e]; [|done].
    rewrite M_lift_return_bind. apply rendered_write_plan.
  - rewrite (WriterFacts.file_writer_direct D) by done.
    rewrite <- app_assoc. apply Himp. intros sb _. cbn [app].
    by rewrite run_steps_call.
Qed.

Lemma writer_checks_events filename signal scalebar scalebar_kwds output_size :
  Forall (λ e, canvas_call e = true)
    (plan_events (writer_checks D filename signal scalebar scalebar_kwds output_size))
  ∧ (rendered D scalebar output_size = false →
     plan_events (writer_checks D filename signal scalebar scalebar_kwds output_size)
     = import_trace D scalebar).
Proof.
  unfold writer_checks, import_trace, plan_events. split.
  - rewrite map_app, concat_app. apply Forall_app. split.
    + destruct (scalebar && negb (scalebar_importable D)); cbn; by repeat constructor.
    + destruct (rendered D scalebar output_size); [|done].
      destruct (select_axes signal) as [axes|e]; [|done].
      unfold rendered_checks. rewrite map_app, concat_app. apply Forall_app. split.
      * cbn. by repeat constructor.
      * destruct (effective_scalebar D scalebar); [|done].
        unfold scalebar_steps.
        destruct (getitem axes 0) as [axis|e]; [|done].
        destruct (check_reciprocal_length D _) as [r|e]; [|done].
        cbn. by repeat constructor.
  - intros ->. rewrite app_nil_r.
    by destruct (scalebar && negb (scalebar_importable D)).
Qed.

Lemma final_call_not_before filename signal scalebar scalebar_kwds output_size kwds :
  final_call D filename signal scalebar output_size kwds
  ∉ plan_events (writer_checks D filename signal scalebar scalebar_kwds output_size).
Proof.
  intros Hin.
  destruct (writer_checks_events filename signal scalebar scalebar_kwds output_size)
    as [Hall _].
  rewrite Forall_forall in Hall. specialize (Hall _ Hin).
  unfold final_call in Hall. by destruct (rendered D scalebar output_size).
Qed.

End WithDelegates.

End WriterPlanFacts.

Import PlanFacts WriterPlanFacts.

(** X8.  Without a scale bar to draw (none requested, or the overlay library
    missing) and with an [output_size] that is not true ([None], [0], [0.0],
    an empty sequence), [file_writer] writes through the codec: the warning
    first when a scale bar was requested, then one [imwrite] with the data and
    the options, whose outcome is the outcome of the writer. *)
Theorem file_writer_falls_back_to_direct
    (D : Delegates) (filename : string) (signal : Signal) (scalebar : bool)
    (scalebar_kwds : option kwargs) (output_size : size_arg) (kwds : kwargs) :
  scalebar = false ∨ scalebar_importable D = false →
  truthy_size output_size = false →
  file_writer D filename signal scalebar scalebar_kwds output_size kwds
  = ((if scalebar then [import_warning] else [])
     ++ [Imwrite filename (plain_data D signal) kwds],
     match outcome D (Imwrite filename (plain_data D signal) kwds) with
     | None => Return tt
     | Some x => Raise x
     end).
Proof.
  intros Hsb Ht.
  assert (Hr : rendered D scalebar output_size = false).
  { unfold rendered, effective_scalebar. rewrite Ht.
    destruct Hsb as [-> | ->]; [done|]. by rewrite andb_false_r. }
  rewrite (WriterFacts.file_writer_direct D) by done.
  unfold import_scalebar, import_trace, perform, mbind, M_bind. cbn [fst snd].
  destruct Hsb as [-> | ->]; [done|].
  by destruct scalebar.
Qed.

Lemma file_writer_falls_back_to_direct_witness :
  file_writer Variants.without_scalebar "out.bmp"
    (Reference.signal2d Reference.nm Reference.nm) true None
    (SizeNumber (NInt 0)) {[ "quality" := VInt 90 ]}
  = ((if true then [import_warning] else [])
     ++ [Imwrite "out.bmp"
           (plain_data Variants.without_scalebar
              (Reference.signal2d Reference.nm Reference.nm))
           {[ "quality" := VInt 90 ]}],
     match outcome Variants.without_scalebar
             (Imwrite "out.bmp"
                (plain_data Variants.without_scalebar
                   (Reference.signal2d Reference.nm Reference.nm))
                {[ "quality" := VInt 90 ]}) with
     | None => Return tt
     | Some x => Raise x
     end).
Proof.
  exact (file_writer_falls_back_to_direct Variants.without_scalebar "out.bmp"
           (Reference.signal2d Reference.nm Reference.nm) true None
           (SizeNumber (NInt 0)) {[ "quality" := VInt 90 ]}
           (or_intror eq_refl) eq_refl).
Defined.

(** X9.  One way only.  If [file_writer] calls the codec's [imwrite] at all,
    then with the file name, the data and the options of the call, and it
    calls nothing else apart from the warning: no figure is built or saved in
    that write.  So a write never goes both ways. *)
Theorem file_writer_one_way_only
    (D : Delegates) (filename : string) (signal : Signal) (scalebar : bool)
    (scalebar_kwds : option kwargs) (output_size : size_arg) (kwds : kwargs)
    (uri : string) (im : ndarray) (options : kwargs) :
  Imwrite uri im options
    ∈ (file_writer D filename signal scalebar scalebar_kwds output_size kwds).1 →
  ∀ e, e ∈ (file_writer D filename signal scalebar scalebar_kwds output_size kwds).1 →
       e = Imwrite filename (plain_data D signal) kwds ∨ e = import_warning.
Proof.
  rewrite file_writer_plan. intros Hin.
  pose proof (run_steps_prefix D
                (writer_plan D filename signal scalebar scalebar_kwds output_size kwds))
    as [rest Hpre].
  unfold writer_plan in Hpre. unfold plan_events in Hpre.
  rewrite map_app, concat_app in Hpre. cbn [map concat step_events app] in Hpre.
  fold (plan_events
          (writer_checks D filename signal scalebar scalebar_kwds output_size)) in Hpre.
  destruct (writer_checks_events D filename signal scalebar scalebar_kwds output_size)
    as [Hall Hdirect].
  rewrite Forall_forall in Hall.
  assert (Hsub : ∀ e, e ∈ (run_steps D
                   (writer_plan D filename signal scalebar scalebar_kwds output_size
                      kwds)).1 →
                 e ∈ plan_events
                       (writer_checks D filename signal scalebar scalebar_kwds output_size)
                 ∨ e = final_call D filename signal scalebar output_size kwds).
  { intros e He.
    assert (He' : e ∈ plan_events
                        (writer_checks D filename signal scalebar scalebar_kwds
                           output_size)
                      ++ [final_call D filename signal scalebar output_size kwds])
      by (rewrite Hpre; apply elem_of_app; by left).
    apply elem_of_app in He' as [He'|He']; [by left|].
    right. by apply list_elem_of_singleton in He'. }
  destruct (rendered D scalebar output_size) eqn:Hr.
  - destruct (Hsub _ Hin) as [Hc|Hf].
    + by apply Hall in Hc.
    + unfold final_call in Hf. by rewrite Hr in Hf.
  - intros e He. destruct (Hsub _ He) as [Hc|Hf].
    + right. rewrite (Hdirect eq_refl) in Hc. unfold import_trace in Hc.
      destruct (scalebar && negb (scalebar_importable D));
        [by apply list_elem_of_singleton in Hc | by apply elem_of_nil in Hc].
    + left. unfold final_call in Hf. by rewrite Hr in Hf.
Qed.

Lemma file_writer_one_way_only_witness :
  Forall (λ e, e = Imwrite "out.bmp"
                     (plain_data Reference.delegates
                        (Reference.signal2d Reference.nm Reference.nm)) ∅
               ∨ e = import_warning)
    (file_writer Reference.delegates "out.bmp"
       (Reference.signal2d Reference.nm Reference.nm) false None SizeNone ∅).1.
Proof.
  apply Forall_forall.
  refine (file_writer_one_way_only Reference.delegates "out.bmp"
            (Reference.signal2d Reference.nm Reference.nm) false None SizeNone ∅
            "out.bmp" Reference.image_4x4 ∅ _).
  apply list_elem_of_singleton. reflexivity.
Defined.

(** X10.  The call that writes the file ([savefig] in rendered mode,
    [imwrite] otherwise) is made only as the last call, after every check and
    every earlier call has passed; and [file_writer] returns normally exactly
    when that call was made and succeeded. *)
Theorem file_writer_returns_iff_written
    (D : Delegates) (filename : string) (signal : Signal) (scalebar : bool)
    (scalebar_kwds : option kwargs) (output_size : size_arg) (kwds : kwargs) :
  ((file_writer D filename signal scalebar scalebar_kwds output_size kwds).2 = Return tt
   ↔ final_call D filename signal scalebar output_size kwds
       ∈ (file_writer D filename signal scalebar scalebar_kwds output_size kwds).1
     ∧ outcome D (final_call D filename signal scalebar output_size kwds) = None)
  ∧ (final_call D filename signal scalebar output_size kwds
       ∈ (file_writer D filename signal scalebar scalebar_kwds output_size kwds).1 →
     last (file_writer D filename signal scalebar scalebar_kwds output_size kwds).1
     = Some (final_call D filename signal scalebar output_size kwds)
     ∧ Forall (λ s, step_error D s = None)
         (writer_checks D filename signal scalebar scalebar_kwds output_size)).
Proof.
  rewrite file_writer_plan. unfold writer_plan.
  pose proof (run_steps_final D
                (writer_checks D filename signal scalebar scalebar_kwds output_size)
                (final_call D filename signal scalebar output_size kwds)
                (final_call_not_before D filename signal scalebar scalebar_kwds
                   output_size kwds)) as [Hfinal Hiff].
  split; [exact Hiff|].
  intros Hin. destruct (Hfinal Hin) as [Hall Hlast]. by split.
Qed.

Lemma file_writer_returns_iff_written_witness :
  (file_writer Variants.failing_savefig "out.png"
     (Reference.signal2d Reference.nm Reference.nm) true None SizeNone ∅).2
  ≠ Return tt
  ∧ last (file_writer Variants.failing_savefig "out.png"
            (Reference.signal2d Reference.nm Reference.nm) true None SizeNone ∅).1
    = Some (final_call Variants.failing_savefig "out.png"
              (Reference.signal2d Reference.nm Reference.nm) true SizeNone ∅).
Proof.
  split.
  - intros Hret.
    apply (proj1 (file_writer_returns_iff_written Variants.failing_savefig "out.png"
                    (Reference.signal2d Reference.nm Reference.nm) true None SizeNone ∅))
      in Hret as [_ Hout].
    discriminate Hout.
  - refine (proj1 (proj2 (file_writer_returns_iff_written Variants.failing_savefig
                            "out.png" (Reference.signal2d Reference.nm Reference.nm)
                            true None SizeNone ∅) _)).
    apply list_elem_of_lookup. exists 6. vm_compute. reflexivity.
Defined.

(** X11.  The errors of the writer, for a file name that is a path string
    and output sizes that are floats or ints below 2^53 in absolute value
    (the sizes of the chosen axes when [output_size] is [None]), so that the
    division [size / dpi] of the code is the one of [truediv] and does not
    overflow.  When [file_writer] raises, the error is one of its own four
    [ValueError]s, or the error of the delegate call it made last, or the
    error of the unit registry; it raises nothing else (in particular its
    reads of [axes[0]], [axes[1]] and of the variables bound in the first
    rendered block never fail). *)
Theorem file_writer_errors
    (D : Delegates) (filename : string) (signal : Signal) (scalebar : bool)
    (scalebar_kwds : option kwargs) (output_size : size_arg) (kwds : kwargs)
    (x : exn) :
  (∀ axes, select_axes signal = Return axes →
           Forall in_float_range (resolve_output_size output_size axes)) →
  (file_writer D filename signal scalebar scalebar_kwds output_size kwds).2 = Raise x →
  (∃ msg, x = ValueError msg ∧ msg ∈ writer_messages D)
  ∨ (∃ e, last (file_writer D filename signal scalebar scalebar_kwds output_size kwds).1
          = Some e
          ∧ outcome D e = Some x)
  ∨ (∃ u, check_reciprocal_length D u = Raise x).
Proof.
  rewrite file_writer_plan. intros _ Hx.
  destruct (run_steps_raise D _ x Hx) as (s & Hin & Hs & Hlast).
  destruct s as [e|e|[[]|y]]; cbn in Hs; [|done|done|].
  { right. left. exists e. by split; [apply Hlast|]. }
  injection Hs as ->.
  unfold writer_plan, writer_checks in Hin.
  apply elem_of_app in Hin as [Hin|Hin];
    [|by apply list_elem_of_singleton in Hin].
  apply elem_of_app in Hin as [Hin|Hin].
  { destruct (scalebar && negb (scalebar_importable D));
      [by apply list_elem_of_singleton in Hin | by apply elem_of_nil in Hin]. }
  destruct (rendered D scalebar output_size); [|by apply elem_of_nil in Hin].
  destruct (select_axes signal) as [axes|e] eqn:Hsel.
  2:{ apply list_elem_of_singleton in Hin. injection Hin as ->.
      left. unfold select_axes in Hsel.
      repeat case_bool_decide; try done. injection Hsel as <-.
      eexists. split; [done|]. unfold writer_messages. set_solver. }
  pose proof (select_axes_length signal axes Hsel) as Hlen.
  destruct axes as [|a0 [|a1 [|a2 axes]]]; try done.
  unfold rendered_checks in Hin.
  apply elem_of_app in Hin as [Hin|Hin].
  - repeat (apply elem_of_cons in Hin as [Hin|Hin]; try done).
    + injection Hin as Hin. left. unfold format_guard in Hin.
      unfold writer_messages.
      case_bool_decide; [|done].
      destruct (effective_scalebar D scalebar).
      * injection Hin as ->. eexists. split; [done|]. set_solver.
      * destruct (truthy_size _); [|done].
        injection Hin as ->. eexists. split; [done|]. set_solver.
    + injection Hin as Hin. left. unfold calibration_guard in Hin.
      destruct (effective_scalebar D scalebar); [|done].
      cbn in Hin. destruct (mismatch a0 a1); [|done].
      injection Hin as ->. eexists. split; [done|].
      unfold writer_messages. set_solver.
    + by apply elem_of_nil in Hin.
  - destruct (effective_scalebar D scalebar); [|by apply elem_of_nil in Hin].
    unfold scalebar_steps in Hin. cbn [getitem lookup list_lookup] in Hin.
    destruct (check_reciprocal_length D _) as [r|e] eqn:Hcheck.
    + repeat (apply elem_of_cons in Hin as [Hin|Hin]; try done).
      by apply elem_of_nil in Hin.
    + apply list_elem_of_singleton in Hin. injection Hin as ->.
      right. right. by eexists.
Qed.

Lemma file_writer_errors_witness :
  (∃ msg, DelegateError "UndefinedUnitError" "furlong" = ValueError msg
          ∧ msg ∈ writer_messages Reference.delegates)
  ∨ (∃ e, last (file_writer Reference.delegates "out.png"
                  (Reference.signal2d Variants.furlong Variants.furlong)
                  true None SizeNone ∅).1 = Some e
          ∧ outcome Reference.delegates e
            = Some (DelegateError "UndefinedUnitError" "furlong"))
  ∨ (∃ u, check_reciprocal_length Reference.delegates u
          = Raise (DelegateError "UndefinedUnitError" "furlong")).
Proof.
  refine (file_writer_errors Reference.delegates "out.png"
            (Reference.signal2d Variants.furlong Variants.furlong)
            true None SizeNone ∅ (DelegateError "UndefinedUnitError" "furlong") _ _).
  - intros axes Hsel. vm_compute in Hsel. injection Hsel as <-.
    repeat constructor.
  - vm_compute. reflexivity.
Defined.



(** X14.  The canvas, for output sizes that are floats or ints below 2^53 in
    absolute value, so that the division [size / dpi] of the code is the one
    of [truediv].  In rendered mode, on the chosen axes, the first call after
    the import is the construction of the figure, whatever happens next: its
    size is the output size divided by 100 (the sizes of the two axes, in
    their order, when [output_size] is [None]; the number twice when it is
    one number; the sequence itself otherwise) and its density is 100; and a
    write that returns has ended with [savefig] at the density 100 and with
    the options as [pil_kwargs]. *)
Theorem file_writer_canvas
    (D : Delegates) (filename : string) (signal : Signal) (scalebar : bool)
    (scalebar_kwds : option kwargs) (output_size : size_arg) (kwds : kwargs)
    (axes : list Axis) :
  (scalebar = true ∧ scalebar_importable D = true) ∨ truthy_size output_size = true →
  select_axes signal = Return axes →
  Forall in_float_range (resolve_output_size output_size axes) →
  (∃ t, (file_writer D filename signal scalebar scalebar_kwds output_size kwds).1
        = import_trace D scalebar
          ++ NewFigure
               (map (λ size, truediv size 100)
                  match output_size with
                  | SizeNone => map (λ axis, NInt (axis_size axis)) axes
                  | SizeNumber n => [n; n]
                  | SizeSeq l => l
                  end)
               100
             :: t)
  ∧ ((file_writer D filename signal scalebar scalebar_kwds output_size kwds).2
     = Return tt →
     last (file_writer D filename signal scalebar scalebar_kwds output_size kwds).1
     = Some (Savefig filename 100 kwds)).
Proof.
  intros Hr Hsel _. apply rendered_iff in Hr. split.
  - rewrite (file_writer_on_axes D filename signal scalebar scalebar_kwds output_size
               kwds axes) by done.
    cbn [fst]. unfold rendered_write.
    fold (resolve_output_size output_size axes).
    destruct (outcome D (NewFigure (figsize (resolve_output_size output_size axes)) dpi))
      as [x|] eqn:Hfig.
    + rewrite (perform_bind_raise D _ x) by done. by exists [].
    + rewrite perform_bind_ok by done. by eexists.
  - intros Hret.
    destruct (file_writer_returns_iff_written D filename signal scalebar scalebar_kwds
                output_size kwds) as [Hiff Hlast].
    apply Hiff in Hret as [Hin _]. apply Hlast in Hin as [Hin _].
    unfold final_call in Hin. by rewrite Hr in Hin.
Qed.

Lemma file_writer_canvas_witness :
  (∃ t, (file_writer Reference.delegates "out.png"
           (Reference.signal2d Reference.nm Reference.nm) false None
           (SizeNumber (NInt 512)) ∅).1
        = import_trace Reference.delegates false
          ++ NewFigure
               (map (λ size, truediv size 100)
                  match SizeNumber (NInt 512) with
                  | SizeNone => map (λ axis, NInt (axis_size axis))
                                  [Reference.nm; Reference.nm]
                  | SizeNumber n => [n; n]
                  | SizeSeq l => l
                  end)
               100
             :: t)
  ∧ last (file_writer Reference.delegates "out.png"
            (Reference.signal2d Reference.nm Reference.nm) false None
            (SizeNumber (NInt 512)) ∅).1
    = Some (Savefig "out.png" 100 ∅).
Proof.
  assert (Hsizes : Forall in_float_range
                      (resolve_output_size (SizeNumber (NInt 512))
                         [Reference.nm; Reference.nm])).
  { repeat constructor. }
  pose proof (file_writer_canvas Reference.delegates "out.png"
                (Reference.signal2d Reference.nm Reference.nm) false None
                (SizeNumber (NInt 512)) ∅ [Reference.nm; Reference.nm]
                (or_intror eq_refl) eq_refl Hsizes) as [Hfirst Hlast].
  split; [exact Hfirst|]. apply Hlast. vm_compute. reflexivity.
Defined.

(** ** File names without a dot *)

Module ExtensionFacts.




End ExtensionFacts.
Import ExtensionFacts.


